(** * hardhat-verify: the verification tasks of [src/index.ts]

    A shallow embedding of the task actions registered by
    [packages/hardhat-verify/src/index.ts].  The actions are sequential
    [async] functions that call collaborators (the Etherscan client, the
    artifacts store, the Solidity compile tasks, the console).  They are
    embedded in a state-and-exception monad that also records every
    interaction with a collaborator, in order, as a trace of events.

    The only object the actions mutate is the compiler input handed to
    [TASK_VERIFY_ETHERSCAN_ATTEMPT_VERIFICATION]; compiler-input objects
    therefore live in a store and are passed by reference. *)

From Stdlib Require Import ZArith Ascii String.
From stdpp Require Import base option list strings gmap.

Set Default Proof Using "Type".
Local Open Scope string_scope.
Local Open Scope list_scope.

(** ** Errors

    The error classes imported from [./internal/errors], with the arguments
    their constructors are given in [index.ts].  [TypeError] is the JavaScript
    exception of a property access on [undefined]; [OtherError] stands for
    any other exception a collaborator throws. *)

Inductive Exception : Type :=
| MissingAddressError
| InvalidAddressError (address : string)
| InvalidContractNameError (contractName : string)
| InvalidConstructorArgumentsError
| InvalidLibrariesError
| CompilerVersionsMismatchError
    (configCompilerVersions : list string) (inferredCompilerVersion : string)
    (network : string)
| ContractNotFoundError (contractFQN : string)
| BuildInfoNotFoundError (contractFQN : string)
| BuildInfoCompilerVersionMismatchError
    (contractFQN : string) (compilerVersion : string) (isVersionRange : bool)
    (buildInfoCompilerVersion : string) (network : string)
| DeployedBytecodeMismatchError (network : string) (contractFQN : string)
| UnexpectedNumberOfFilesError
| VerificationAPIUnexpectedMessageError (message : string)
| ContractVerificationFailedError
    (message : string) (undetectableLibraries : list string)
| TypeError (message : string)
| OtherError (message : string).

(** What a call to a collaborator produces: a value, or a thrown exception. *)
Inductive Result (A : Type) : Type :=
| Ok (a : A)
| Err (e : Exception).
Arguments Ok {A} a.
Arguments Err {A} e.

(** How an action ends: it returns, it throws, or it ends the process
    ([process.exit]). *)
Inductive Outcome (A : Type) : Type :=
| Returned (a : A)
| Threw (e : Exception)
| Exited (code : Z).
Arguments Returned {A} a.
Arguments Threw {A} e.
Arguments Exited {A} code.

(** ** Data the plugin only passes on

    Types declared outside [index.ts] whose values the actions never
    inspect. *)
Class Types : Type := {
  World : Type;            (* everything outside the plugin: chain, explorer, disk *)
  Provider : Type;         (* network.provider *)
  CustomChains : Type;     (* config.etherscan.customChains *)
  ApiKey : Type;           (* config.etherscan.apiKey *)
  SolidityConfig : Type;   (* config.solidity *)
  ChainConfig : Type;
  Etherscan : Type;        (* an instance of the Etherscan client *)
  Sources : Type;          (* compilerInput.sources *)
  OtherSettings : Type;    (* compilerInput.settings, apart from libraries *)
  BuildInfoRest : Type;    (* a build info, apart from solcVersion *)
  DependencyEdges : Type;  (* a dependency graph, apart from its files *)
  FileContent : Type;      (* a resolved file, apart from its source name *)
  CompilationJob : Type;
  ABI : Type;
  ArgValue : Type          (* a constructor argument *)
}.

(** [LibraryToAddress] and [SourceToLibraryToAddress] are JavaScript objects
    used as dictionaries and serialized in insertion order. *)
Definition LibraryToAddress : Type := list (string * string).
Definition SourceToLibraryToAddress : Type := list (string * LibraryToAddress).

(** A reference to a compiler-input object in the store. *)
Definition Ref : Type := nat.

Definition newline : string := String "010"%char EmptyString.

Section Plugin.

Context {T : Types}.

(** ** Data model *)

(** [CompilerInput] ([hardhat/types]): [{language, sources, settings}]. *)
Record Settings : Type := {
  settings_libraries : option SourceToLibraryToAddress;
  settings_other : OtherSettings
}.

Record CompilerInput : Type := {
  language : string;
  sources : Sources;
  settings : Settings
}.

(** [compilerInput.settings.libraries = libraries] on the object's content. *)
Definition assign_libraries (input : CompilerInput)
    (libraries : SourceToLibraryToAddress) : CompilerInput :=
  {| language := language input;
     sources := sources input;
     settings := {| settings_libraries := Some libraries;
                    settings_other := settings_other (settings input) |} |}.

(** The class [Bytecode] ([./internal/solc/bytecode]) through the methods
    [index.ts] calls on an instance. *)
Record Bytecode : Type := {
  bytecode_hex : string;
  getVersion : string;
  isOvm : bool;
  hasVersionRange : bool
}.

Record BuildInfo : Type := {
  solcVersion : string;
  buildInfo_rest : BuildInfoRest
}.

Record ResolvedFile : Type := {
  file_sourceName : string;
  file_content : FileContent
}.

Record DependencyGraph : Type := {
  getResolvedFiles : list ResolvedFile;
  graph_edges : DependencyEdges
}.

Record ContractOutput : Type := {
  abi : ABI
}.

(** [ContractInformation] ([./internal/solc/artifacts]).  [I] is how the
    compiler input is held: by content when the artifacts module hands the
    record over, by reference once the object is in the store. *)
Record ContractInformation (I : Type) : Type := {
  compilerInput : I;
  solcLongVersion : string;
  sourceName : string;
  contractName : string;
  contractOutput : ContractOutput
}.
Arguments compilerInput {I} _.
Arguments solcLongVersion {I} _.
Arguments sourceName {I} _.
Arguments contractName {I} _.
Arguments contractOutput {I} _.

Record LibraryInformation : Type := {
  libraries : SourceToLibraryToAddress;
  undetectableLibraries : list string
}.

(** [ExtendedContractInformation = ContractInformation & LibraryInformation],
    built by [{...contractInformation, ...libraryInformation}]. *)
Record ExtendedContractInformation : Type := {
  contractInformation_of : ContractInformation Ref;
  libraryInformation_of : LibraryInformation
}.

(** The response object of the Etherscan client ([./internal/etherscan]):
    its message and what [isFailure()] and [isSuccess()] answer. *)
Record EtherscanResponse : Type := {
  message : string;
  isFailure : bool;
  isSuccess : bool
}.

Record VerificationResponse : Type := {
  success : bool;
  response_message : string
}.

(** [taskArgs.libraries]: a module path, absent, or (for the
    [verify:verify] subtask) already a dictionary: [typeof ... === "object"]. *)
Inductive LibrariesParam : Type :=
| LibrariesModule (path : option string)
| LibrariesObject (dictionary : LibraryToAddress).

Record VerifyTaskArgs : Type := {
  address : option string;
  constructorArgsParams : list string;
  constructorArgs : option string;
  taskArgs_libraries : LibrariesParam;
  contract : option string;
  listNetworks : bool
}.

Record VerificationArgs : Type := {
  args_address : string;
  args_constructorArgs : list (ArgValue);
  args_libraries : LibraryToAddress;
  args_contractFQN : option string
}.

Record EtherscanConfig : Type := {
  apiKey : ApiKey;
  customChains : CustomChains;
  etherscan_enabled : bool
}.

Record SourcifyConfig : Type := {
  sourcify_enabled : bool
}.

Record HardhatConfig : Type := {
  etherscan : EtherscanConfig;
  sourcify : SourcifyConfig;
  solidity : SolidityConfig
}.

Record Network : Type := {
  name : string;
  provider : Provider
}.

(** ** Collaborators

    A collaborator that is awaited, or that can throw, reads and updates the
    world and answers with a [Result]. *)
Definition Oracle (A : Type) : Type := World → Result A * World.

Record Env : Type := {
  (* the Hardhat runtime environment *)
  config : HardhatConfig;
  network : Network;
  (* ./internal/task-names *)
  TASK_VERIFY_ETHERSCAN : string;
  TASK_VERIFY_SOURCIFY : string;
  TASK_VERIFY_SOURCIFY_DISABLED_WARNING : string;
  (* tasks registered elsewhere, run by name *)
  runTask : string → VerifyTaskArgs → Oracle unit;
  (* @ethersproject/address, hardhat/utils/contract-names *)
  isAddress : string → bool;
  isFullyQualifiedName : string → bool;
  (* ./internal/utilities *)
  sleep : Z → World → World;
  encodeArguments :
    ABI → string → string → list (ArgValue) → Oracle string;
  getCompilerVersions : SolidityConfig → Oracle (list string);
  printSupportedNetworks : CustomChains → Oracle unit;
  resolveConstructorArguments :
    list string → option string → Oracle (list (ArgValue));
  resolveLibraries : option string → Oracle LibraryToAddress;
  (* ./internal/etherscan *)
  getCurrentChainConfig :
    string → Provider → CustomChains → Oracle (ChainConfig);
  fromChainConfig : ApiKey → ChainConfig → Oracle (Etherscan);
  isVerified : Etherscan → string → Oracle bool;
  getContractUrl : Etherscan → string → string;
  verify :
    Etherscan → string → string → string → string → string →
    Oracle EtherscanResponse;
  getVerificationStatus : Etherscan → string → Oracle EtherscanResponse;
  (* ./internal/solc/bytecode *)
  getDeployedContractBytecode : string → Provider → string → Oracle Bytecode;
  getMatchingVersions : Bytecode → list string → Oracle (list string);
  (* hre.artifacts and ./internal/solc/artifacts *)
  artifactExists : string → Oracle bool;
  getBuildInfo : string → Oracle (option BuildInfo);
  extractMatchingContractInformation :
    string → BuildInfo → Bytecode →
    Oracle (option (ContractInformation CompilerInput));
  extractInferredContractInformation :
    Network → list string → Bytecode →
    Oracle (ContractInformation CompilerInput);
  getLibraryInformation :
    ContractInformation CompilerInput → LibraryToAddress →
    Oracle LibraryInformation;
  (* hardhat/builtin-tasks *)
  getDependencyGraph : list string → Oracle DependencyGraph;
  getCompilationJobForFile :
    DependencyGraph → ResolvedFile → Oracle (CompilationJob);
  getCompilerInput : CompilationJob → Oracle CompilerInput;
  (* JSON.stringify on a compiler input *)
  JSON_stringify : CompilerInput → string
}.

(** ** Events

    One event per interaction with a collaborator, with what was asked and
    what came back. *)
Inductive Event : Type :=
| EvConsoleLog (text : string)
| EvConsoleWarn (text : string)
| EvSleep (ms : Z)
| EvPrintVerificationErrors (errors : gmap string Exception)
| EvPrintSupportedNetworks (r : Result unit)
| EvTaskStart (task : string)
| EvTaskEnd (task : string) (o : Outcome unit)
| EvRunTask (task : string) (r : Result unit)
| EvResolveConstructorArguments
    (params : list string) (module : option string)
    (r : Result (list (ArgValue)))
| EvResolveLibraries (module : option string) (r : Result LibraryToAddress)
| EvGetCurrentChainConfig (networkName : string) (r : Result (ChainConfig))
| EvFromChainConfig (r : Result (Etherscan))
| EvIsVerified (address : string) (r : Result bool)
| EvGetCompilerVersions (r : Result (list string))
| EvGetDeployedContractBytecode
    (address : string) (networkName : string) (r : Result Bytecode)
| EvGetMatchingVersions
    (bytecode : Bytecode) (versions : list string) (r : Result (list string))
| EvArtifactExists (contractFQN : string) (r : Result bool)
| EvGetBuildInfo (contractFQN : string) (r : Result (option BuildInfo))
| EvExtractMatchingContractInformation
    (contractFQN : string) (buildInfo : BuildInfo) (bytecode : Bytecode)
    (r : Result (option (ContractInformation CompilerInput)))
| EvExtractInferredContractInformation
    (versions : list string) (bytecode : Bytecode)
    (r : Result (ContractInformation CompilerInput))
| EvGetLibraryInformation
    (information : ContractInformation CompilerInput)
    (libraries : LibraryToAddress) (r : Result LibraryInformation)
| EvGetDependencyGraph (sourceNames : list string) (r : Result DependencyGraph)
| EvGetCompilationJobForFile
    (graph : DependencyGraph) (file : ResolvedFile)
    (r : Result (CompilationJob))
| EvGetCompilerInput (job : CompilationJob) (r : Result CompilerInput)
| EvEncodeArguments
    (sourceName contractName : string) (args : list (ArgValue))
    (r : Result string)
| EvVerify
    (address sourceCode contractName compilerVersion constructorArguments : string)
    (r : Result EtherscanResponse)
| EvGetVerificationStatus (guid : string) (r : Result EtherscanResponse).

(** ** The monad of actions *)

Record State : Type := {
  world : World;
  heap : list CompilerInput
}.

Definition M (A : Type) : Type := State → Outcome A * State * list Event.

#[export] Instance M_ret : MRet M := λ A a s, (Returned a, s, []).

#[export] Instance M_bind : MBind M := λ A B f m s,
  match m s with
  | (Returned a, s1, t1) => let '(o, s2, t2) := f a s1 in (o, s2, t1 ++ t2)
  | (Threw e, s1, t1) => (Threw e, s1, t1)
  | (Exited code, s1, t1) => (Exited code, s1, t1)
  end.

Definition outcome_of {A} (r : Outcome A * State * list Event) : Outcome A := r.1.1.
Definition state_of {A} (r : Outcome A * State * list Event) : State := r.1.2.
Definition trace_of {A} (r : Outcome A * State * list Event) : list Event := r.2.

Definition throw {A} (e : Exception) : M A := λ s, (Threw e, s, []).

(** [process.exit(code)] *)
Definition process_exit {A} (code : Z) : M A := λ s, (Exited code, s, []).

(** [try { m } catch (error) { handler error }] *)
Definition try_catch {A} (m : M A) (handler : Exception → M A) : M A := λ s,
  match m s with
  | (Threw e, s1, t1) => let '(o, s2, t2) := handler e s1 in (o, s2, t1 ++ t2)
  | r => r
  end.

Definition emit (ev : Event) : M unit := λ s, (Returned tt, s, [ev]).

Definition console_log (text : string) : M unit := emit (EvConsoleLog text).
Definition console_warn (text : string) : M unit := emit (EvConsoleWarn text).

(** A call to a collaborator: the world moves, the call and its result are
    recorded, an exception propagates. *)
Definition call {A} (oracle : Oracle A) (ev : Result A → Event) : M A := λ s,
  let '(r, w) := oracle (world s) in
  (match r with Ok a => Returned a | Err e => Threw e end,
   {| world := w; heap := heap s |}, [ev r]).

(** A fresh object with the given content. *)
Definition alloc (content : CompilerInput) : M Ref := λ s,
  (Returned (length (heap s)),
   {| world := world s; heap := heap s ++ [content] |}, []).

(** [cloneDeep(value)]: a new object, equal in content, sharing nothing. *)
Definition cloneDeep (value : CompilerInput) : M Ref := alloc value.

(** Reading the object behind a reference; a reference to no object behaves
    as [undefined] does. *)
Definition deref (r : Ref) : M CompilerInput := λ s,
  match heap s !! r with
  | Some content => (Returned content, s, [])
  | None => (Threw (TypeError "Cannot read properties of undefined"), s, [])
  end.

(** [ref.settings.libraries = libraries], in place. *)
Definition set_settings_libraries (r : Ref)
    (libraries : SourceToLibraryToAddress) : M unit := λ s,
  match heap s !! r with
  | Some content =>
      (Returned tt,
       {| world := world s;
          heap := <[r := assign_libraries content libraries]> (heap s) |}, [])
  | None => (Threw (TypeError "Cannot read properties of undefined"), s, [])
  end.

Variable env : Env.

(** [await sleep(ms)] *)
Definition do_sleep (ms : Z) : M unit := λ s,
  (Returned tt, {| world := sleep env ms (world s); heap := heap s |},
   [EvSleep ms]).

(** [printVerificationErrors(errors)] writes to the console. *)
Definition printVerificationErrors (errors : gmap string Exception) : M unit :=
  emit (EvPrintVerificationErrors errors).

(** ** The task actions *)

(** [TASK_VERIFY_GET_VERIFICATION_SUBTASKS] *)
Definition task_verify_get_verification_subtasks : M (list string) :=
  let verificationSubtasks := [] in
  let verificationSubtasks :=
    if etherscan_enabled (etherscan (config env))
    then verificationSubtasks ++ [TASK_VERIFY_ETHERSCAN env]
    else verificationSubtasks in
  let verificationSubtasks :=
    if sourcify_enabled (sourcify (config env))
    then verificationSubtasks ++ [TASK_VERIFY_SOURCIFY env]
    else verificationSubtasks ++ [TASK_VERIFY_SOURCIFY_DISABLED_WARNING env] in
  (if negb (etherscan_enabled (etherscan (config env)))
      && negb (sourcify_enabled (sourcify (config env)))
   then console_warn
     "WARNING: No verification services are enabled. Please enable at least one verification service in your configuration."
   else mret tt);;
  mret verificationSubtasks.

(** [TASK_VERIFY_SOURCIFY_DISABLED_WARNING] *)
Definition task_verify_sourcify_disabled_warning : M unit :=
  console_warn
    ("WARNING: Skipping Sourcify verification: Sourcify is disabled. To enable it, add this entry to your config:"
     +:+ newline +:+ newline +:+ "sourcify: {" +:+ newline +:+ "enabled: true"
     +:+ newline +:+ "}" +:+ newline +:+ newline
     +:+ "Learn more at https://...").

(** [TASK_VERIFY_PRINT_SUPPORTED_NETWORKS] *)
Definition task_verify_print_supported_networks : M unit :=
  call (printSupportedNetworks env (customChains (etherscan (config env))))
       EvPrintSupportedNetworks.

(** [TASK_VERIFY_RESOLVE_ARGUMENTS] *)
Definition task_verify_resolve_arguments (taskArgs : VerifyTaskArgs)
    : M VerificationArgs :=
  match address taskArgs with
  | None => throw MissingAddressError
  | Some address =>
    if negb (isAddress env address) then throw (InvalidAddressError address)
    else
      match contract taskArgs with
      | Some contract =>
          if negb (isFullyQualifiedName env contract)
          then throw (InvalidContractNameError contract)
          else mret tt
      | None => mret tt
      end;;
      constructorArgs ←
        call (resolveConstructorArguments env
                (constructorArgsParams taskArgs) (constructorArgs taskArgs))
             (EvResolveConstructorArguments
                (constructorArgsParams taskArgs) (constructorArgs taskArgs));
      libraries ←
        match taskArgs_libraries taskArgs with
        | LibrariesObject librariesModule => mret librariesModule
        | LibrariesModule librariesModule =>
            call (resolveLibraries env librariesModule)
                 (EvResolveLibraries librariesModule)
        end;
      mret {| args_address := address;
              args_constructorArgs := constructorArgs;
              args_libraries := libraries;
              args_contractFQN := contract taskArgs |}
  end.

(** The record of a contract, its compiler input held by reference. *)
Definition by_reference (information : ContractInformation CompilerInput)
    (input : Ref) : ContractInformation Ref :=
  {| compilerInput := input;
     solcLongVersion := solcLongVersion information;
     sourceName := sourceName information;
     contractName := contractName information;
     contractOutput := contractOutput information |}.

(** [TASK_VERIFY_ETHERSCAN_GET_CONTRACT_INFORMATION] *)
Definition task_verify_etherscan_get_contract_information
    (contractFQN : option string) (deployedBytecode : Bytecode)
    (matchingCompilerVersions : list string) (libraries : LibraryToAddress)
    : M ExtendedContractInformation :=
  contractInformation ←
    match contractFQN with
    | Some contractFQN =>
        artifactExists ←
          try_catch
            (call (artifactExists env contractFQN)
                  (EvArtifactExists contractFQN))
            (λ error, mret false);
        if negb artifactExists then throw (ContractNotFoundError contractFQN)
        else
          buildInfo ←
            call (getBuildInfo env contractFQN) (EvGetBuildInfo contractFQN);
          match buildInfo with
          | None => throw (BuildInfoNotFoundError contractFQN)
          | Some buildInfo =>
            if negb (bool_decide
                       (solcVersion buildInfo ∈ matchingCompilerVersions))
               && negb (isOvm deployedBytecode)
            then throw (BuildInfoCompilerVersionMismatchError
                          contractFQN
                          (getVersion deployedBytecode)
                          (hasVersionRange deployedBytecode)
                          (solcVersion buildInfo)
                          (name (network env)))
            else
              contractInformation ←
                call (extractMatchingContractInformation env
                        contractFQN buildInfo deployedBytecode)
                     (EvExtractMatchingContractInformation
                        contractFQN buildInfo deployedBytecode);
              match contractInformation with
              | None =>
                  throw (DeployedBytecodeMismatchError
                           (name (network env)) contractFQN)
              | Some contractInformation => mret contractInformation
              end
          end
    | None =>
        call (extractInferredContractInformation env
                (network env) matchingCompilerVersions deployedBytecode)
             (EvExtractInferredContractInformation
                matchingCompilerVersions deployedBytecode)
    end;
  (* map contractInformation libraries *)
  libraryInformation ←
    call (getLibraryInformation env contractInformation libraries)
         (EvGetLibraryInformation contractInformation libraries);
  (* the compiler input of the record is one object, from here on held by
     reference *)
  input ← alloc (compilerInput contractInformation);
  mret {| contractInformation_of := by_reference contractInformation input;
          libraryInformation_of := libraryInformation |}.

(** The resolved files of a graph that carry a given source name. *)
Definition files_named (sourceName : string) (graph : DependencyGraph)
    : list ResolvedFile :=
  filter (λ resolvedFile, file_sourceName resolvedFile = sourceName)
         (getResolvedFiles graph).

(** [TASK_VERIFY_ETHERSCAN_GET_MINIMAL_INPUT] *)
Definition task_verify_etherscan_get_minimal_input (sourceName : string)
    : M Ref :=
  dependencyGraph ←
    call (getDependencyGraph env [sourceName])
         (EvGetDependencyGraph [sourceName]);
  let resolvedFiles :=
    filter (λ resolvedFile, file_sourceName resolvedFile = sourceName)
           (getResolvedFiles dependencyGraph) in
  if negb (length resolvedFiles =? 1)%nat then throw UnexpectedNumberOfFilesError
  else
    match resolvedFiles with
    | file :: _ =>
        compilationJob ←
          call (getCompilationJobForFile env dependencyGraph file)
               (EvGetCompilationJobForFile dependencyGraph file);
        minimalInput ←
          call (getCompilerInput env compilationJob)
               (EvGetCompilerInput compilationJob);
        cloneDeep minimalInput
    | [] => throw UnexpectedNumberOfFilesError (* not reached: the length is 1 *)
    end.

(** [TASK_VERIFY_ETHERSCAN_ATTEMPT_VERIFICATION] *)
Definition task_verify_etherscan_attempt_verification
    (address : string) (compilerInput_ref : Ref)
    (contractInformation : ExtendedContractInformation)
    (verificationInterface : Etherscan)
    (encodedConstructorArguments : string) : M VerificationResponse :=
  let information := contractInformation_of contractInformation in
  (* Ensure the linking information is present in the compiler input *)
  set_settings_libraries compilerInput_ref
    (libraries (libraryInformation_of contractInformation));;
  input ← deref compilerInput_ref;
  response ←
    call (verify env verificationInterface address
            (JSON_stringify env input)
            (sourceName information +:+ ":" +:+ contractName information)
            ("v" +:+ solcLongVersion information)
            encodedConstructorArguments)
         (EvVerify address
            (JSON_stringify env input)
            (sourceName information +:+ ":" +:+ contractName information)
            ("v" +:+ solcLongVersion information)
            encodedConstructorArguments);
  let guid := message response in
  console_log
    ("Successfully submitted source code for contract" +:+ newline
     +:+ sourceName information +:+ ":" +:+ contractName information
     +:+ " at " +:+ address +:+ newline
     +:+ "for verification on the block explorer. Waiting for verification result..."
     +:+ newline);;
  (* Compilation is bound to take some time *)
  do_sleep 700;;
  verificationStatus ←
    call (getVerificationStatus env verificationInterface guid)
         (EvGetVerificationStatus guid);
  if negb (isFailure verificationStatus || isSuccess verificationStatus)
  then throw (VerificationAPIUnexpectedMessageError
                (message verificationStatus))
  else
    (if isSuccess verificationStatus
     then
       let contractURL := getContractUrl env verificationInterface address in
       console_log
         ("Successfully verified contract " +:+ contractName information
          +:+ " on the block explorer." +:+ newline +:+ contractURL)
     else mret tt);;
    mret {| success := isSuccess verificationStatus;
            response_message := message verificationStatus |}.

(** [TASK_VERIFY_ETHERSCAN]: the main Etherscan verification subtask. *)
Definition task_verify_etherscan (taskArgs : VerifyTaskArgs) : M unit :=
  args ← task_verify_resolve_arguments taskArgs;
  let address := args_address args in
  let constructorArgs := args_constructorArgs args in
  let libraries := args_libraries args in
  let contractFQN := args_contractFQN args in
  chainConfig ←
    call (getCurrentChainConfig env (name (network env))
            (provider (network env)) (customChains (etherscan (config env))))
         (EvGetCurrentChainConfig (name (network env)));
  etherscan ←
    call (fromChainConfig env (apiKey (etherscan (config env))) chainConfig)
         EvFromChainConfig;
  isVerified ← call (isVerified env etherscan address) (EvIsVerified address);
  if isVerified : bool then
    let contractURL := getContractUrl env etherscan address in
    console_log ("The contract " +:+ address
                 +:+ " has already been verified." +:+ newline +:+ contractURL)
  else
    configCompilerVersions ←
      call (getCompilerVersions env (solidity (config env)))
           EvGetCompilerVersions;
    deployedBytecode ←
      call (getDeployedContractBytecode env address (provider (network env))
              (name (network env)))
           (EvGetDeployedContractBytecode address (name (network env)));
    matchingCompilerVersions ←
      call (getMatchingVersions env deployedBytecode configCompilerVersions)
           (EvGetMatchingVersions deployedBytecode configCompilerVersions);
    (* don't error if the bytecode appears to be OVM bytecode *)
    (if (length matchingCompilerVersions =? 0)%nat
        && negb (isOvm deployedBytecode)
     then throw (CompilerVersionsMismatchError
                   configCompilerVersions
                   (getVersion deployedBytecode)
                   (name (network env)))
     else mret tt);;
    contractInformation ←
      task_verify_etherscan_get_contract_information
        contractFQN deployedBytecode matchingCompilerVersions libraries;
    let information := contractInformation_of contractInformation in
    minimalInput ←
      task_verify_etherscan_get_minimal_input (sourceName information);
    encodedConstructorArguments ←
      call (encodeArguments env (abi (contractOutput information))
              (sourceName information) (contractName information)
              constructorArgs)
           (EvEncodeArguments (sourceName information)
              (contractName information) constructorArgs);
    (* First, try to verify the contract using the minimal input *)
    minimalInputVerification ←
      task_verify_etherscan_attempt_verification
        address minimalInput contractInformation etherscan
        encodedConstructorArguments;
    if success minimalInputVerification then mret tt
    else
      console_log
        ("We tried verifying your contract " +:+ contractName information
         +:+ " without including any unrelated one, but it failed." +:+ newline
         +:+ "Trying again with the full solc input used to compile and deploy it."
         +:+ newline
         +:+ "This means that unrelated contracts may be displayed on Etherscan..."
         +:+ newline);;
      (* If verifying with the minimal input failed, try again with the full
         compiler input *)
      fullCompilerInputVerification ←
        task_verify_etherscan_attempt_verification
          address (compilerInput information) contractInformation etherscan
          encodedConstructorArguments;
      if success fullCompilerInputVerification then mret tt
      else
        throw (ContractVerificationFailedError
                 (response_message fullCompilerInputVerification)
                 (undetectableLibraries
                    (libraryInformation_of contractInformation))).

(** The arguments of the [verify:verify] subtask as a script can pass them:
    [constructorArguments] is an array or some other value, [libraries] is a
    dictionary, an array, or a value that is not an object ([null] is left
    out). *)
Inductive ConstructorArgumentsValue : Type :=
| ArgumentsArray (items : list string)
| ArgumentsNotArray.

Inductive LibrariesValue : Type :=
| LibrariesDictionary (dictionary : LibraryToAddress)
| LibrariesArray
| LibrariesNotObject.

Record VerifySubtaskArgs : Type := {
  subtask_address : option string;
  constructorArguments : ConstructorArgumentsValue;
  subtask_libraries : LibrariesValue;
  subtask_contract : option string
}.

(** [TASK_VERIFY_VERIFY]: the subtask kept for backwards compatibility. *)
Definition task_verify_verify (args : VerifySubtaskArgs) : M unit :=
  match constructorArguments args with
  | ArgumentsNotArray => throw InvalidConstructorArgumentsError
  | ArgumentsArray constructorArguments =>
      match subtask_libraries args with
      | LibrariesNotObject | LibrariesArray => throw InvalidLibrariesError
      | LibrariesDictionary libraries =>
          task_verify_etherscan
            {| address := subtask_address args;
               constructorArgsParams := constructorArguments;
               constructorArgs := None;
               taskArgs_libraries := LibrariesObject libraries;
               contract := subtask_contract args;
               listNetworks := false |}
      end
  end.

(** [run(verificationSubtask, taskArgs)]: the runtime looks the task up by
    name and runs its action; the start and the end of the run are recorded.
    A later registration under a name replaces an earlier one. *)
Definition dispatch (task : string) (taskArgs : VerifyTaskArgs) : M unit :=
  if decide (task = TASK_VERIFY_ETHERSCAN env)
  then task_verify_etherscan taskArgs
  else if decide (task = TASK_VERIFY_SOURCIFY_DISABLED_WARNING env)
  then task_verify_sourcify_disabled_warning
  else call (runTask env task taskArgs) (EvRunTask task).

Definition run (task : string) (taskArgs : VerifyTaskArgs) : M unit := λ s,
  let '(o, s1, t1) := dispatch task taskArgs s in
  (o, s1, [EvTaskStart task] ++ t1 ++ [EvTaskEnd task o]).

(** The loop of [TASK_VERIFY] over the verification subtasks, threading the
    local variables [errors] and [hasErrors]. *)
Fixpoint run_verification_subtasks (verificationSubtasks : list string)
    (taskArgs : VerifyTaskArgs) (errors : gmap string Exception)
    (hasErrors : bool) : M (gmap string Exception * bool) :=
  match verificationSubtasks with
  | [] => mret (errors, hasErrors)
  | verificationSubtask :: rest =>
      '(errors, hasErrors) ←
        try_catch
          (run verificationSubtask taskArgs;; mret (errors, hasErrors))
          (λ error, mret (<[verificationSubtask := error]> errors, true));
      run_verification_subtasks rest taskArgs errors hasErrors
  end.

(** [TASK_VERIFY]: the main verification task. *)
Definition task_verify (taskArgs : VerifyTaskArgs) : M unit :=
  if listNetworks taskArgs then task_verify_print_supported_networks
  else
    verificationSubtasks ← task_verify_get_verification_subtasks;
    '(errors, hasErrors) ←
      run_verification_subtasks verificationSubtasks taskArgs ∅ false;
    if hasErrors : bool then
      printVerificationErrors errors;;
      process_exit 1
    else mret tt.

(** ** Reading a trace *)

(** The stage of a verification request an event belongs to. *)
Inductive Stage : Type :=
| StageConsole       (* console output *)
| StageBatch         (* TASK_VERIFY: running and reporting the subtasks *)
| StageExternal      (* a verification subtask registered elsewhere *)
| StageArguments     (* TASK_VERIFY_RESOLVE_ARGUMENTS *)
| StageExplorer      (* chain configuration, client, is-verified check *)
| StageBytecode      (* configured versions, deployed bytecode, matching *)
| StageContract      (* TASK_VERIFY_ETHERSCAN_GET_CONTRACT_INFORMATION *)
| StageMinimalInput  (* TASK_VERIFY_ETHERSCAN_GET_MINIMAL_INPUT *)
| StageEncoding      (* constructor arguments *)
| StageSubmission.   (* TASK_VERIFY_ETHERSCAN_ATTEMPT_VERIFICATION *)

#[export] Instance Stage_eq_dec : EqDecision Stage.
Proof. solve_decision. Defined.

Definition stage (ev : Event) : Stage :=
  match ev with
  | EvConsoleLog _ | EvConsoleWarn _ => StageConsole
  | EvPrintVerificationErrors _ | EvPrintSupportedNetworks _
  | EvTaskStart _ | EvTaskEnd _ _ => StageBatch
  | EvRunTask _ _ => StageExternal
  | EvResolveConstructorArguments _ _ _ | EvResolveLibraries _ _ =>
      StageArguments
  | EvGetCurrentChainConfig _ _ | EvFromChainConfig _ | EvIsVerified _ _ =>
      StageExplorer
  | EvGetCompilerVersions _ | EvGetDeployedContractBytecode _ _ _
  | EvGetMatchingVersions _ _ _ => StageBytecode
  | EvArtifactExists _ _ | EvGetBuildInfo _ _
  | EvExtractMatchingContractInformation _ _ _ _
  | EvExtractInferredContractInformation _ _ _
  | EvGetLibraryInformation _ _ _ => StageContract
  | EvGetDependencyGraph _ _ | EvGetCompilationJobForFile _ _ _
  | EvGetCompilerInput _ _ => StageMinimalInput
  | EvEncodeArguments _ _ _ _ => StageEncoding
  | EvSleep _ | EvVerify _ _ _ _ _ _ | EvGetVerificationStatus _ _ =>
      StageSubmission
  end.

(** The source codes submitted to the explorer, in order. *)
Definition submissions (t : list Event) : list string :=
  omap (λ ev, match ev with
              | EvVerify _ sourceCode _ _ _ _ => Some sourceCode
              | _ => None
              end) t.

(** The answers to the status polls, in order. *)
Definition polls (t : list Event) : list (Result EtherscanResponse) :=
  omap (λ ev, match ev with
              | EvGetVerificationStatus _ r => Some r
              | _ => None
              end) t.

(** The runs started by [TASK_VERIFY], in order. *)
Definition started (t : list Event) : list string :=
  omap (λ ev, match ev with EvTaskStart task => Some task | _ => None end) t.

(** The runs that came to an end, with how they ended. *)
Definition ended (t : list Event) : list (string * Outcome unit) :=
  omap (λ ev, match ev with
              | EvTaskEnd task o => Some (task, o)
              | _ => None
              end) t.

(** The runs that ended with an exception. *)
Definition failures (t : list Event) : list (string * Exception) :=
  omap (λ ev, match ev with
              | EvTaskEnd task (Threw e) => Some (task, e)
              | _ => None
              end) t.

(** The dictionary [errors] after the failures of a list of runs were
    recorded in it, in order: [errors[task] = error]. *)
Definition record_failures (errors : gmap string Exception)
    (failed : list (string * Exception)) : gmap string Exception :=
  foldl (λ errors failure, <[failure.1 := failure.2]> errors) errors failed.

(** The error reports printed. *)
Definition reports (t : list Event) : list (gmap string Exception) :=
  omap (λ ev, match ev with
              | EvPrintVerificationErrors errors => Some errors
              | _ => None
              end) t.

(** The addresses the explorer and the chain were asked about. *)
Definition addresses (t : list Event) : list string :=
  omap (λ ev, match ev with
              | EvIsVerified address _
              | EvGetDeployedContractBytecode address _ _
              | EvVerify address _ _ _ _ _ => Some address
              | _ => None
              end) t.

(** The request tokens polled. *)
Definition polled (t : list Event) : list string :=
  omap (λ ev, match ev with
              | EvGetVerificationStatus guid _ => Some guid
              | _ => None
              end) t.

(** The library tables resolved for a contract, with the contract. *)
Definition library_lookups (t : list Event)
    : list (ContractInformation CompilerInput * Result LibraryInformation) :=
  omap (λ ev, match ev with
              | EvGetLibraryInformation information _ r => Some (information, r)
              | _ => None
              end) t.

(** The compiler inputs built by the compile tasks. *)
Definition built_inputs (t : list Event) : list (Result CompilerInput) :=
  omap (λ ev, match ev with
              | EvGetCompilerInput _ r => Some r
              | _ => None
              end) t.

(** How the request ends once the minimal attempt has reported a failure,
    given how the attempt with the full compiler input ends. *)
Definition request_ends (table : LibraryInformation)
    (full : Outcome VerificationResponse) : Outcome unit :=
  match full with
  | Returned response =>
      if success response then Returned tt
      else Threw (ContractVerificationFailedError
                    (response_message response) (undetectableLibraries table))
  | Threw e => Threw e
  | Exited code => Exited code
  end.

(** How one submission attempt ends, given the answers to its polls: without
    a poll the submission itself threw; a poll that throws ends the attempt;
    an answered poll decides. *)
Definition attempt_ends (answers : list (Result EtherscanResponse))
    (o : Outcome VerificationResponse) : Prop :=
  match answers with
  | [] => ∃ e, o = Threw e
  | [Err e] => o = Threw e
  | [Ok status] =>
      o = if isFailure status || isSuccess status
          then Returned {| success := isSuccess status;
                           response_message := message status |}
          else Threw (VerificationAPIUnexpectedMessageError (message status))
  | _ => False
  end.

End Plugin.

Arguments compilerInput {T I} _.
Arguments solcLongVersion {T I} _.
Arguments sourceName {T I} _.
Arguments contractName {T I} _.
Arguments contractOutput {T I} _.

(** ** A concrete project

    A small instance of the collaborators, on which the actions run: an
    explorer that answers the status polls from a queue, and a project with
    one contract, [contracts/Foo.sol:Foo]. *)
Module Demo.

#[export] Instance types : Types :=
  {| World := list EtherscanResponse;   (* the answers the explorer will give *)
     Provider := unit; CustomChains := unit; ApiKey := string;
     SolidityConfig := list string; ChainConfig := unit; Etherscan := unit;
     Sources := list string; OtherSettings := unit; BuildInfoRest := unit;
     DependencyEdges := unit; FileContent := unit; CompilationJob := string;
     ABI := unit; ArgValue := string |}.

Record Scenario : Type := {
  sc_verified : bool;                 (* is the address already verified? *)
  sc_matching : list string;          (* what getMatchingVersions answers *)
  sc_ovm : bool;                      (* is the deployed bytecode OVM bytecode? *)
  sc_artifact : Result bool;          (* what artifactExists answers *)
  sc_solcVersion : string;            (* the version that built the artifact *)
  sc_matches : bool;                  (* does the artifact match the bytecode? *)
  sc_files : list string;             (* source names of the resolved files *)
  sc_etherscan : bool;                (* config.etherscan.enabled *)
  sc_sourcify : bool;                 (* config.sourcify.enabled *)
  sc_sourcify_result : Result unit    (* how the Sourcify subtask ends *)
}.

Definition pass : EtherscanResponse :=
  {| message := "Pass - Verified"; isFailure := false; isSuccess := true |}.
Definition fail_minimal : EtherscanResponse :=
  {| message := "Fail - Unable to verify (minimal)";
     isFailure := true; isSuccess := false |}.
Definition fail_full : EtherscanResponse :=
  {| message := "Fail - Unable to verify (full)";
     isFailure := true; isSuccess := false |}.
Definition pending : EtherscanResponse :=
  {| message := "Pending in queue"; isFailure := false; isSuccess := false |}.

Definition foo_libraries : SourceToLibraryToAddress :=
  [("contracts/Lib.sol", [("Lib", "0x5FbDB2315678afecb367f032d93F642f64180aa3")])].

Definition full_input : CompilerInput :=
  {| language := "Solidity";
     sources := ["contracts/Foo.sol"; "contracts/Bar.sol"; "contracts/Lib.sol"];
     settings := {| settings_libraries := None; settings_other := tt |} |}.

Definition minimal_input : CompilerInput :=
  {| language := "Solidity";
     sources := ["contracts/Foo.sol"; "contracts/Lib.sol"];
     settings := {| settings_libraries := None; settings_other := tt |} |}.

Definition foo_information : ContractInformation CompilerInput :=
  {| compilerInput := full_input;
     solcLongVersion := "0.8.2+commit.661d1103";
     sourceName := "contracts/Foo.sol";
     contractName := "Foo";
     contractOutput := {| abi := tt |} |}.

Definition foo_library_information : LibraryInformation :=
  {| libraries := foo_libraries; undetectableLibraries := ["ConstructorLib"] |}.

Definition deployed (sc : Scenario) : Bytecode :=
  {| bytecode_hex := "6080604052"; getVersion := "0.8.1";
     isOvm := sc_ovm sc; hasVersionRange := false |}.

Definition answer {A} (a : A) : Oracle A := λ w, (Ok a, w).

(** The serialization used here lists the sources and the libraries. *)
Definition stringify (input : CompilerInput) : string :=
  String.concat "," (sources input) +:+ "|" +:+
  match settings_libraries (settings input) with
  | Some libraries =>
      String.concat ","
        (map (λ entry : string * LibraryToAddress,
                entry.1 +:+ ":" +:+
                String.concat ";"
                  (map (λ l : string * string, l.1 +:+ "=" +:+ l.2) entry.2))
             libraries)
  | None => "-"
  end.

Definition env (sc : Scenario) : Env :=
  {| config :=
       {| etherscan := {| apiKey := "KEY"; customChains := tt;
                          etherscan_enabled := sc_etherscan sc |};
          sourcify := {| sourcify_enabled := sc_sourcify sc |};
          solidity := ["0.8.2"; "0.8.19"] |};
     network := {| name := "sepolia"; provider := tt |};
     TASK_VERIFY_ETHERSCAN := "verify:etherscan";
     TASK_VERIFY_SOURCIFY := "verify:sourcify";
     TASK_VERIFY_SOURCIFY_DISABLED_WARNING := "verify:sourcify-disabled-warning";
     runTask := λ _ _ w, (sc_sourcify_result sc, w);
     isAddress := λ a, bool_decide (String.length a = 42);
     isFullyQualifiedName := λ n, bool_decide (n = "contracts/Foo.sol:Foo");
     sleep := λ _ w, w;
     encodeArguments := λ _ _ _ args, answer (String.concat "" args);
     getCompilerVersions := λ versions, answer versions;
     printSupportedNetworks := λ _, answer tt;
     resolveConstructorArguments := λ params _, answer params;
     resolveLibraries := λ _, answer [];
     getCurrentChainConfig := λ _ _ _, answer tt;
     fromChainConfig := λ _ _, answer tt;
     isVerified := λ _ _, answer (sc_verified sc);
     getContractUrl := λ _ a, "https://sepolia.etherscan.io/address/" +:+ a +:+ "#code";
     verify := λ _ _ _ _ _ _,
       answer {| message := "guid"; isFailure := false; isSuccess := false |};
     getVerificationStatus := λ _ _ w,
       match w with
       | status :: rest => (Ok status, rest)
       | [] => (Err (OtherError "network error"), [])
       end;
     getDeployedContractBytecode := λ _ _ _, answer (deployed sc);
     getMatchingVersions := λ _ _, answer (sc_matching sc);
     artifactExists := λ _ w, (sc_artifact sc, w);
     getBuildInfo := λ _,
       answer (Some {| solcVersion := sc_solcVersion sc; buildInfo_rest := tt |});
     extractMatchingContractInformation := λ _ _ _,
       answer (if sc_matches sc then Some foo_information else None);
     extractInferredContractInformation := λ _ _ _, answer foo_information;
     getLibraryInformation := λ _ _, answer foo_library_information;
     getDependencyGraph := λ _,
       answer {| getResolvedFiles :=
                   map (λ n, {| file_sourceName := n; file_content := tt |})
                       (sc_files sc);
                 graph_edges := tt |};
     getCompilationJobForFile := λ _ file, answer (file_sourceName file);
     getCompilerInput := λ _, answer minimal_input;
     JSON_stringify := stringify |}.

(** The usual case: nothing verified yet, version 0.8.2 on both sides, the
    artifact matches, both back-ends enabled. *)
Definition usual : Scenario :=
  {| sc_verified := false; sc_matching := ["0.8.2"]; sc_ovm := false;
     sc_artifact := Ok true; sc_solcVersion := "0.8.2"; sc_matches := true;
     sc_files := ["contracts/Foo.sol"; "contracts/Lib.sol"];
     sc_etherscan := true; sc_sourcify := true;
     sc_sourcify_result := Ok tt |}.

(** The explorer already lists the contract as verified. *)
Definition already_verified : Scenario :=
  {| sc_verified := true; sc_matching := ["0.8.2"]; sc_ovm := false;
     sc_artifact := Ok true; sc_solcVersion := "0.8.2"; sc_matches := true;
     sc_files := ["contracts/Foo.sol"; "contracts/Lib.sol"];
     sc_etherscan := true; sc_sourcify := true;
     sc_sourcify_result := Ok tt |}.

(** No configured version matches the deployed bytecode. *)
Definition no_version : Scenario :=
  {| sc_verified := false; sc_matching := []; sc_ovm := false;
     sc_artifact := Ok true; sc_solcVersion := "0.8.2"; sc_matches := true;
     sc_files := ["contracts/Foo.sol"; "contracts/Lib.sol"];
     sc_etherscan := true; sc_sourcify := true;
     sc_sourcify_result := Ok tt |}.

(** The artifact was built with 0.8.2, the deployed bytecode with 0.8.1. *)
Definition other_version : Scenario :=
  {| sc_verified := false; sc_matching := ["0.8.1"]; sc_ovm := false;
     sc_artifact := Ok true; sc_solcVersion := "0.8.2"; sc_matches := true;
     sc_files := ["contracts/Foo.sol"; "contracts/Lib.sol"];
     sc_etherscan := true; sc_sourcify := true;
     sc_sourcify_result := Ok tt |}.

(** The artifact of the named contract does not match the bytecode. *)
Definition other_bytecode : Scenario :=
  {| sc_verified := false; sc_matching := ["0.8.2"]; sc_ovm := false;
     sc_artifact := Ok true; sc_solcVersion := "0.8.2"; sc_matches := false;
     sc_files := ["contracts/Foo.sol"; "contracts/Lib.sol"];
     sc_etherscan := true; sc_sourcify := true;
     sc_sourcify_result := Ok tt |}.

(** The artifacts directory cannot be read. *)
Definition unreadable_artifacts : Scenario :=
  {| sc_verified := false; sc_matching := ["0.8.2"]; sc_ovm := false;
     sc_artifact := Err (OtherError "EACCES: permission denied");
     sc_solcVersion := "0.8.2"; sc_matches := true;
     sc_files := ["contracts/Foo.sol"; "contracts/Lib.sol"];
     sc_etherscan := true; sc_sourcify := true;
     sc_sourcify_result := Ok tt |}.

(** The dependency graph holds the requested file twice. *)
Definition duplicated_file : Scenario :=
  {| sc_verified := false; sc_matching := ["0.8.2"]; sc_ovm := false;
     sc_artifact := Ok true; sc_solcVersion := "0.8.2"; sc_matches := true;
     sc_files := ["contracts/Foo.sol"; "contracts/Foo.sol"];
     sc_etherscan := true; sc_sourcify := true;
     sc_sourcify_result := Ok tt |}.

(** The Sourcify subtask throws. *)
Definition sourcify_down : Scenario :=
  {| sc_verified := false; sc_matching := ["0.8.2"]; sc_ovm := false;
     sc_artifact := Ok true; sc_solcVersion := "0.8.2"; sc_matches := true;
     sc_files := ["contracts/Foo.sol"; "contracts/Lib.sol"];
     sc_etherscan := true; sc_sourcify := true;
     sc_sourcify_result := Err (OtherError "Sourcify is unreachable") |}.

(** The contract information of [Foo] once its compiler input is the object
    at reference 0. *)
Definition foo_extended : ExtendedContractInformation :=
  {| contractInformation_of := by_reference foo_information 0;
     libraryInformation_of := foo_library_information |}.

Definition foo_address : string := "0x5FbDB2315678afecb367f032d93F642f64180aa3".

Definition named_args : VerifyTaskArgs :=
  {| address := Some foo_address;
     constructorArgsParams := ["50"];
     constructorArgs := None;
     taskArgs_libraries := LibrariesModule None;
     contract := Some "contracts/Foo.sol:Foo";
     listNetworks := false |}.

Definition inferred_args : VerifyTaskArgs :=
  {| address := Some foo_address;
     constructorArgsParams := ["50"];
     constructorArgs := None;
     taskArgs_libraries := LibrariesModule None;
     contract := None;
     listNetworks := false |}.

(** The initial state: the explorer's answers to come, an empty store. *)
Definition initial (answers : list EtherscanResponse) : State :=
  {| world := answers; heap := [] |}.

(** Neither service is enabled. *)
Definition nothing_enabled : Scenario :=
  {| sc_verified := false; sc_matching := ["0.8.2"]; sc_ovm := false;
     sc_artifact := Ok true; sc_solcVersion := "0.8.2"; sc_matches := true;
     sc_files := ["contracts/Foo.sol"; "contracts/Lib.sol"];
     sc_etherscan := false; sc_sourcify := false;
     sc_sourcify_result := Ok tt |}.

(** A project whose artifacts hold no build info. *)
Definition without_build_info (e : Env) : Env :=
  {| config := config e;
     network := network e;
     TASK_VERIFY_ETHERSCAN := TASK_VERIFY_ETHERSCAN e;
     TASK_VERIFY_SOURCIFY := TASK_VERIFY_SOURCIFY e;
     TASK_VERIFY_SOURCIFY_DISABLED_WARNING :=
       TASK_VERIFY_SOURCIFY_DISABLED_WARNING e;
     runTask := runTask e;
     isAddress := isAddress e;
     isFullyQualifiedName := isFullyQualifiedName e;
     sleep := sleep e;
     encodeArguments := encodeArguments e;
     getCompilerVersions := getCompilerVersions e;
     printSupportedNetworks := printSupportedNetworks e;
     resolveConstructorArguments := resolveConstructorArguments e;
     resolveLibraries := resolveLibraries e;
     getCurrentChainConfig := getCurrentChainConfig e;
     fromChainConfig := fromChainConfig e;
     isVerified := isVerified e;
     getContractUrl := getContractUrl e;
     verify := verify e;
     getVerificationStatus := getVerificationStatus e;
     getDeployedContractBytecode := getDeployedContractBytecode e;
     getMatchingVersions := getMatchingVersions e;
     artifactExists := artifactExists e;
     getBuildInfo := λ _, answer None;
     extractMatchingContractInformation := extractMatchingContractInformation e;
     extractInferredContractInformation := extractInferredContractInformation e;
     getLibraryInformation := getLibraryInformation e;
     getDependencyGraph := getDependencyGraph e;
     getCompilationJobForFile := getCompilationJobForFile e;
     getCompilerInput := getCompilerInput e;
     JSON_stringify := JSON_stringify e |}.

(** The libraries given as a dictionary. *)
Definition dictionary_args : VerifyTaskArgs :=
  {| address := Some foo_address;
     constructorArgsParams := ["50"];
     constructorArgs := None;
     taskArgs_libraries := LibrariesObject [("Lib", foo_address)];
     contract := Some "contracts/Foo.sol:Foo";
     listNetworks := false |}.

(** [--list-networks], with nothing else. *)
Definition list_args : VerifyTaskArgs :=
  {| address := None;
     constructorArgsParams := [];
     constructorArgs := None;
     taskArgs_libraries := LibrariesModule None;
     contract := None;
     listNetworks := true |}.


(** The arguments resolved from [named_args]. *)
Definition named_resolved : VerificationArgs :=
  {| args_address := foo_address;
     args_constructorArgs := ["50"];
     args_libraries := [];
     args_contractFQN := Some "contracts/Foo.sol:Foo" |}.

(** The explorer's answer to a submission: the token of the request. *)
Definition receipt : EtherscanResponse :=
  {| message := "guid"; isFailure := false; isSuccess := false |}.

(** A store that holds the minimal input at reference 0, and the explorer's
    answers to come. *)
Definition submitting (answers : list EtherscanResponse) : State :=
  {| world := answers; heap := [minimal_input] |}.

End Demo.

(** * Properties *)

(** ** Tactics *)

(** Unfolds the primitives of the monad. *)
Ltac unfold_M :=
  unfold mbind, M_bind, mret, M_ret, throw, process_exit, try_catch,
    console_log, console_warn, printVerificationErrors, emit, call,
    cloneDeep, alloc, deref, set_settings_libraries, do_sleep in *.

(** Runs an action on all its paths: every collaborator's answer and every
    test is split. *)
Ltac split_innermost :=
  match goal with
  | |- context [match ?x with _ => _ end] =>
      lazymatch x with
      | context [match _ with _ => _ end] => fail
      | _ => destruct x eqn:?
      end
  | H : context [match ?x with _ => _ end] |- _ =>
      lazymatch x with
      | context [match _ with _ => _ end] => fail
      | _ => destruct x eqn:?
      end
  end.

Ltac run_paths :=
  unfold_M; simpl in *;
  repeat (split_innermost; simplify_eq/=).

(** Proves a property of every event of a trace known event by event. *)
Ltac all_events :=
  repeat (constructor; [solve [simpl; auto]|]); constructor.

(** Decides a membership question on a trace that is known event by
    event. *)
Ltac in_trace :=
  repeat match goal with
  | H : _ ∈ [] |- _ => by inversion H
  | H : _ ∈ _ :: _ |- _ => rewrite elem_of_cons in H; destruct H as [H | H]
  | H : _ ∈ _ ++ _ |- _ => rewrite elem_of_app in H; destruct H as [H | H]
  | H : @eq Event _ _ |- _ => progress simplify_eq/=
  | H : @eq Event _ _ |- _ => discriminate H
  end.

(** Finds an event in a trace that is known event by event. *)
Ltac find_event :=
  first [ assumption
        | apply list_elem_of_here
        | apply list_elem_of_further; find_event
        | apply elem_of_app; first [ left; find_event | right; find_event ] ].
Ltac find_in_trace := unfold trace_of; simpl; find_event.

Section Properties.

Context {T : Types} (env : Env).

(** ** Running an action *)

Lemma run_bind {A B} (m : M A) (f : A → M B) (s : State) :
  (m ≫= f) s =
  match m s with
  | (Returned a, s1, t1) => let '(o, s2, t2) := f a s1 in (o, s2, t1 ++ t2)
  | (Threw e, s1, t1) => (Threw e, s1, t1)
  | (Exited code, s1, t1) => (Exited code, s1, t1)
  end.
Proof. reflexivity. Qed.

Lemma resolve_arguments_spec taskArgs s o s' t :
  task_verify_resolve_arguments env taskArgs s = (o, s', t) →
  Forall (λ ev, stage ev = StageArguments) t
  ∧ heap s' = heap s
  ∧ (∀ code, o ≠ Exited code)
  ∧ (∀ args, o = Returned args →
       address taskArgs = Some (args_address args)
       ∧ args_contractFQN args = contract taskArgs).
Proof.
  unfold task_verify_resolve_arguments. intros H.
  run_paths.
  all: repeat split; try done; repeat constructor; intros; simplify_eq/=; done.
Qed.

(** ** TASK_VERIFY_ETHERSCAN_GET_CONTRACT_INFORMATION *)

(** C10. In named mode, an artifact-existence check that throws is treated
    exactly as an artifact that does not exist: the exception is swallowed,
    [ContractNotFoundError] with the fully qualified name is thrown, and the
    check is the only interaction: no build info is loaded. *)
Theorem artifact_check_failure_is_contract_not_found
    (contractFQN : string) (deployedBytecode : Bytecode)
    (matchingCompilerVersions : list string) (libraries : LibraryToAddress)
    (s : State) (answer : Result bool) (w : World) :
  artifactExists env contractFQN (world s) = (answer, w) →
  answer = Ok false ∨ (∃ e, answer = Err e) →
  task_verify_etherscan_get_contract_information env
    (Some contractFQN) deployedBytecode matchingCompilerVersions libraries s
  = (Threw (ContractNotFoundError contractFQN),
     {| world := w; heap := heap s |},
     [EvArtifactExists contractFQN answer]).
Proof.
  intros Hcall Hanswer.
  unfold task_verify_etherscan_get_contract_information.
  unfold_M. rewrite Hcall.
  destruct Hanswer as [-> | [e ->]]; reflexivity.
Qed.

(** C4. In named mode, once the build info is loaded: when its compiler
    version is not among the matching versions and the deployed bytecode is
    not OVM bytecode, [BuildInfoCompilerVersionMismatchError] is thrown with
    the contract name, the version read from the deployed bytecode, the
    version of the build info and the network, and nothing is extracted;
    when the deployed bytecode is OVM bytecode the check is skipped and the
    contract information is extracted whatever the versions. *)
Theorem build_info_version_is_checked
    (contractFQN : string) (deployedBytecode : Bytecode)
    (matchingCompilerVersions : list string) (libraries : LibraryToAddress)
    (s : State) (buildInfo : BuildInfo) :
  let r := task_verify_etherscan_get_contract_information env
             (Some contractFQN) deployedBytecode matchingCompilerVersions
             libraries s in
  EvGetBuildInfo contractFQN (Ok (Some buildInfo)) ∈ trace_of r →
  (solcVersion buildInfo ∉ matchingCompilerVersions →
   isOvm deployedBytecode = false →
   outcome_of r =
     Threw (BuildInfoCompilerVersionMismatchError
              contractFQN (getVersion deployedBytecode)
              (hasVersionRange deployedBytecode) (solcVersion buildInfo)
              (name (network env)))
   ∧ last (trace_of r) = Some (EvGetBuildInfo contractFQN (Ok (Some buildInfo))))
  ∧ (isOvm deployedBytecode = true →
     ∃ answer,
       EvExtractMatchingContractInformation
         contractFQN buildInfo deployedBytecode answer ∈ trace_of r).
Proof.
  intros r Hin. subst r.
  unfold task_verify_etherscan_get_contract_information in *.
  split; [intros Hnot Hovm | intros Hovm].
  - run_paths; in_trace; try done.
    all: rewrite Hovm, bool_decide_eq_false_2 in * by done; done.
  - run_paths; in_trace; try done.
    all: try (rewrite Hovm in *; simpl in *; rewrite andb_false_r in *; done).
    all: eexists; find_in_trace.
Qed.

(** C5. Named mode is exact or fails: when the extraction for the named
    contract finds no match, [DeployedBytecodeMismatchError] with the network
    and the fully qualified name is thrown, the extraction is the last
    interaction, and no inference over the other artifacts is made. *)
Theorem named_mode_mismatch_fails
    (contractFQN : string) (deployedBytecode : Bytecode)
    (matchingCompilerVersions : list string) (libraries : LibraryToAddress)
    (s : State) (buildInfo : BuildInfo) :
  let r := task_verify_etherscan_get_contract_information env
             (Some contractFQN) deployedBytecode matchingCompilerVersions
             libraries s in
  let extraction :=
    EvExtractMatchingContractInformation
      contractFQN buildInfo deployedBytecode (Ok None) in
  extraction ∈ trace_of r →
  outcome_of r =
    Threw (DeployedBytecodeMismatchError (name (network env)) contractFQN)
  ∧ last (trace_of r) = Some extraction
  ∧ ∀ versions bytecode answer,
      EvExtractInferredContractInformation versions bytecode answer
        ∉ trace_of r.
Proof.
  intros r extraction Hin. subst r extraction.
  unfold task_verify_etherscan_get_contract_information in *.
  run_paths; in_trace; try done.
  all: repeat split; try done.
  all: intros ??? Hin; in_trace.
Qed.

Lemma get_contract_information_spec contractFQN deployedBytecode
    matchingCompilerVersions libraries s o s' t :
  task_verify_etherscan_get_contract_information env
    contractFQN deployedBytecode matchingCompilerVersions libraries s
  = (o, s', t) →
  Forall (λ ev, stage ev = StageContract) t
  ∧ (∀ code, o ≠ Exited code)
  ∧ match contractFQN with
    | Some contractFQN =>
        ∃ answer, head t = Some (EvArtifactExists contractFQN answer)
    | None =>
        ∃ answer,
          head t = Some (EvExtractInferredContractInformation
                           matchingCompilerVersions deployedBytecode answer)
    end
  ∧ (∀ information, o = Returned information →
       ∃ found table,
         library_lookups t = [(found, Ok table)]
         ∧ information =
             {| contractInformation_of := by_reference found (length (heap s));
                libraryInformation_of := table |}
         ∧ heap s' = heap s ++ [compilerInput found]).
Proof.
  unfold task_verify_etherscan_get_contract_information. intros H.
  run_paths.
  all: split; [repeat constructor|].
  all: split; [done|].
  all: split; [by eexists|].
  all: intros ? ?; simplify_eq/=; eauto.
Qed.

(** ** TASK_VERIFY_ETHERSCAN_GET_MINIMAL_INPUT *)

(** C8. Once the dependency graph of the requested source name is there:
    unless exactly one of its resolved files carries that source name,
    [UnexpectedNumberOfFilesError] is thrown and the graph is the only
    interaction, so no compilation job is built; with exactly one such file,
    the compilation job is asked for that file. *)
Theorem minimal_input_needs_exactly_one_file
    (sourceName : string) (s : State) (graph : DependencyGraph) (w : World) :
  getDependencyGraph env [sourceName] (world s) = (Ok graph, w) →
  let r := task_verify_etherscan_get_minimal_input env sourceName s in
  (length (files_named sourceName graph) ≠ 1 →
   r = (Threw UnexpectedNumberOfFilesError,
        {| world := w; heap := heap s |},
        [EvGetDependencyGraph [sourceName] (Ok graph)]))
  ∧ (∀ file, files_named sourceName graph = [file] →
     ∃ answer rest,
       trace_of r =
         EvGetDependencyGraph [sourceName] (Ok graph)
         :: EvGetCompilationJobForFile graph file answer :: rest).
Proof.
  intros Hgraph r. subst r.
  unfold task_verify_etherscan_get_minimal_input, files_named.
  unfold_M. rewrite Hgraph.
  split.
  - intros Hlength. apply Nat.eqb_neq in Hlength. by rewrite Hlength.
  - intros file ->. simpl. repeat case_match; simplify_eq/=; eauto.
Qed.

Lemma get_minimal_input_spec sourceName s o s' t :
  task_verify_etherscan_get_minimal_input env sourceName s = (o, s', t) →
  Forall (λ ev, stage ev = StageMinimalInput) t
  ∧ (∀ code, o ≠ Exited code)
  ∧ (∀ input, o = Returned input →
       ∃ built,
         built_inputs t = [Ok built]
         ∧ input = length (heap s)
         ∧ heap s' = heap s ++ [built]).
Proof.
  unfold task_verify_etherscan_get_minimal_input. intros H.
  run_paths.
  all: split; [repeat constructor|].
  all: split; [done|].
  all: intros ? ?; simplify_eq/=; eauto.
Qed.

(** ** TASK_VERIFY_ETHERSCAN_ATTEMPT_VERIFICATION *)

(** C2. When the status polled for a submission is neither a failure nor a
    success, the attempt throws [VerificationAPIUnexpectedMessageError] with
    the reported message: it does not return a verdict, and the poll is its
    last interaction, after one submission and one poll. *)
Theorem unexpected_status_is_an_error
    (address : string) (input : Ref)
    (contractInformation : ExtendedContractInformation)
    (verificationInterface : Etherscan) (encodedConstructorArguments : string)
    (s : State) (guid : string) (status : EtherscanResponse) :
  let r := task_verify_etherscan_attempt_verification env
             address input contractInformation verificationInterface
             encodedConstructorArguments s in
  EvGetVerificationStatus guid (Ok status) ∈ trace_of r →
  isFailure status = false →
  isSuccess status = false →
  outcome_of r =
    Threw (VerificationAPIUnexpectedMessageError (message status))
  ∧ last (trace_of r) = Some (EvGetVerificationStatus guid (Ok status))
  ∧ length (submissions (trace_of r)) = 1
  ∧ polls (trace_of r) = [Ok status].
Proof.
  intros r Hin Hfailure Hsuccess. subst r.
  unfold task_verify_etherscan_attempt_verification in *.
  run_paths; in_trace; try done.
  all: rewrite Hfailure, Hsuccess in *; done.
Qed.

Lemma attempt_verification_spec address input contractInformation
    verificationInterface encodedConstructorArguments s content o s' t :
  heap s !! input = Some content →
  task_verify_etherscan_attempt_verification env
    address input contractInformation verificationInterface
    encodedConstructorArguments s = (o, s', t) →
  let sent :=
    assign_libraries content
      (libraries (libraryInformation_of contractInformation)) in
  Forall (λ ev, stage ev = StageSubmission ∨ stage ev = StageConsole) t
  ∧ (∀ code, o ≠ Exited code)
  ∧ heap s' = <[input := sent]> (heap s)
  ∧ submissions t = [JSON_stringify env sent]
  ∧ attempt_ends (polls t) o.
Proof.
  intros Hcontent H sent. subst sent.
  unfold task_verify_etherscan_attempt_verification in *.
  unfold_M. simpl in *. rewrite Hcontent in H. simpl in H.
  rewrite list_lookup_insert_eq in H by by eapply lookup_lt_Some.
  simpl in H.
  repeat (split_innermost; simplify_eq/=).
  all: split; [all_events|].
  all: split; [done|].
  all: split; [done|].
  all: split; [done|].
  all: unfold attempt_ends; simpl; eauto.
  all: repeat match goal with
       | response : EtherscanResponse |- _ => destruct response as [? [|] [|]]
       end; by simplify_eq/=.
Qed.

Lemma attempt_verification_stage address input contractInformation
    verificationInterface encodedConstructorArguments s o s' t :
  task_verify_etherscan_attempt_verification env
    address input contractInformation verificationInterface
    encodedConstructorArguments s = (o, s', t) →
  Forall (λ ev, stage ev = StageSubmission ∨ stage ev = StageConsole) t
  ∧ (∀ code, o ≠ Exited code).
Proof.
  unfold task_verify_etherscan_attempt_verification. intros H.
  run_paths.
  all: split; [all_events | done].
Qed.

(** ** TASK_VERIFY_ETHERSCAN *)

(** Brings in what is known of the subtasks that ran. *)
Ltac use_specs :=
  repeat match goal with
  | H : task_verify_resolve_arguments _ _ _ = _ |- _ =>
      apply resolve_arguments_spec in H as (? & ? & ? & ?)
  | H : task_verify_etherscan_get_contract_information _ _ _ _ _ _ = _ |- _ =>
      apply get_contract_information_spec in H as (? & ? & ? & ?)
  | H : task_verify_etherscan_get_minimal_input _ _ _ = _ |- _ =>
      apply get_minimal_input_spec in H as (? & ? & ?)
  | H : task_verify_etherscan_attempt_verification _ _ _ _ _ _ _ = _ |- _ =>
      apply attempt_verification_stage in H as (? & ?)
  end.

(** Refutes the presence of an event in the trace of a subtask whose events
    are of another stage. *)
Ltac off_stage :=
  match goal with
  | H : ?ev ∈ ?t, F : Forall _ ?t |- _ =>
      rewrite Forall_forall in F; apply F in H; simpl in H;
      solve [ discriminate H | destruct H as [H | H]; discriminate H ]
  end.

(** An observation that no event of a trace answers to is empty. *)
Lemma omap_off {B} (f : Event → option B) (P : Event → Prop) (t : list Event) :
  Forall P t → (∀ ev, P ev → f ev = None) → omap f t = [].
Proof.
  intros Hall Hnone. induction Hall as [|ev t Hev _ IH]; [done|].
  simpl. rewrite (Hnone ev Hev). exact IH.
Qed.

(** Puts the observations of a trace in normal form: they distribute over
    the parts of the trace and vanish on the parts of another stage. *)
Ltac observe :=
  unfold submissions, polls, library_lookups, built_inputs in *;
  repeat first [ rewrite omap_app | progress csimpl ];
  repeat match goal with
  | F : Forall ?P ?t |- context [omap ?f ?t] =>
      rewrite (omap_off f P t F)
        by (let ev := fresh in let Hs := fresh in
            intros ev Hs; destruct ev; simpl in *;
            solve [ done | destruct Hs; done ])
  | H : omap ?f ?t = _ |- context [omap ?f ?t] => rewrite H
  end;
  rewrite ?app_nil_r; csimpl.

Lemma store_minimal_input (h : list CompilerInput) (full built : CompilerInput) :
  ((h ++ [full]) ++ [built]) !! length (h ++ [full]) = Some built.
Proof. by apply list_lookup_middle. Qed.

Lemma store_full_input (h : list CompilerInput)
    (full built sent : CompilerInput) :
  <[length (h ++ [full]) := sent]> ((h ++ [full]) ++ [built]) !! length h
  = Some full.
Proof.
  rewrite list_lookup_insert_ne by (rewrite length_app; simpl; lia).
  rewrite lookup_app_l by (rewrite length_app; simpl; lia).
  by apply list_lookup_middle.
Qed.

Lemma attempt_ends_returned answers response :
  attempt_ends answers (Returned response) →
  ∃ status,
    answers = [Ok status]
    ∧ isFailure status || isSuccess status = true
    ∧ response = {| success := isSuccess status;
                    response_message := message status |}.
Proof.
  destruct answers as [|[status|e] [|]]; simpl; try done.
  - by intros [e ?].
  - destruct (isFailure status || isSuccess status) eqn:?; [|done].
    intros [= ->]. eauto.
Qed.

(** The submissions and the polls of a whole request.  Either the request
    ends before anything is submitted, or the contract and its library table
    were resolved and the minimal input built, and then: the minimal attempt
    ends the request, by a success or by an exception; or it reports a
    failure and the attempt with the full input decides. *)
Lemma verify_etherscan_submissions taskArgs s o s' t :
  task_verify_etherscan env taskArgs s = (o, s', t) →
  (submissions t = [] ∧ polls t = [])
  ∨ ∃ found table built,
      library_lookups t = [(found, Ok table)]
      ∧ built_inputs t = [Ok built]
      ∧ let minimal :=
          JSON_stringify env (assign_libraries built (libraries table)) in
        let full :=
          JSON_stringify env
            (assign_libraries (compilerInput found) (libraries table)) in
        (submissions t = [minimal]
         ∧ ∃ first, attempt_ends (polls t) first
             ∧ match first with
               | Returned response => success response = true ∧ o = Returned tt
               | Threw e => o = Threw e
               | Exited _ => False
               end)
        ∨ (submissions t = [minimal; full]
           ∧ ∃ status answers second,
               polls t = Ok status :: answers
               ∧ isSuccess status = false ∧ isFailure status = true
               ∧ attempt_ends answers second
               ∧ o = request_ends table second).
Proof.
  unfold task_verify_etherscan. intros H.
  run_paths.
  all: repeat match goal with
       | H : task_verify_resolve_arguments _ _ _ = _ |- _ =>
           apply resolve_arguments_spec in H as (? & ? & ? & ?)
       | H : task_verify_etherscan_get_contract_information _ _ _ _ _ _ = _
         |- _ =>
           apply get_contract_information_spec in H as (? & ? & ? & Hfound)
       | H : task_verify_etherscan_get_minimal_input _ _ _ = _ |- _ =>
           apply get_minimal_input_spec in H as (? & ? & Hbuilt)
       end.
  all: try by match goal with
              | H : ∀ code, Exited ?c ≠ Exited code |- _ => destruct (H c)
              end.
  all: try (left; split; observe; done).
  all: destruct (Hfound _ eq_refl) as (found & table & ? & -> & ?).
  all: destruct (Hbuilt _ eq_refl) as (built & ? & -> & ?).
  all: simpl in *.
  all: repeat match goal with
       | H : heap ?s = _ |- _ => is_var s; rewrite H in *; clear H
       end.
  all: match goal with
       | E : task_verify_etherscan_attempt_verification _ _ _ _ _ _
               {| world := _; heap := _ |} = _ |- _ =>
           eapply attempt_verification_spec in E as (? & ? & ? & ? & ?);
             [|simpl; apply store_minimal_input]
       end.
  all: simpl in *.
  all: try match goal with
       | E : task_verify_etherscan_attempt_verification _ _ _ _ _ _ _ = _
         |- _ =>
           eapply attempt_verification_spec in E as (? & ? & ? & ? & ?);
             [|simpl;
               match goal with
               | H : heap ?s = _ |- heap ?s !! _ = _ => rewrite H
               end;
               apply store_full_input]
       end.
  all: simpl in *.
  all: try by match goal with
              | H : ∀ code, Exited ?c ≠ Exited code |- _ => destruct (H c)
              end.
  all: right; exists found, table, built.
  all: split; [by observe|].
  all: split; [by observe|].
  all: simpl.
  all: match reverse goal with
       | Hfirst : attempt_ends _ (Returned ?r), Hs : success ?r = false |- _ =>
           right;
           apply attempt_ends_returned in Hfirst as (status & Hpolls & Hor & ->);
           simpl in Hs; rewrite Hs, orb_false_r in Hor
       | _ => left
       end.
  all: split; [by observe|].
  all: first
    [ eexists; split; [observe; eassumption|]; by simpl
    | exists status; eexists _, _;
      split; [by observe|];
      split; [done|];
      split; [done|];
      split; [eassumption|];
      unfold request_ends; simpl;
      repeat match goal with H : success _ = _ |- _ => rewrite H end;
      done ].
Qed.

(** C9. When the explorer reports the address as already verified, the
    subtask returns normally right after the is-verified check: the check is
    followed by the console message only, and the whole run consists of the
    argument resolution, the connection to the explorer and console output:
    no deployed bytecode is fetched, no contract resolved, nothing submitted
    or polled. *)
Theorem already_verified_returns_at_once
    (taskArgs : VerifyTaskArgs) (s : State) (address : string) :
  let r := task_verify_etherscan env taskArgs s in
  EvIsVerified address (Ok true) ∈ trace_of r →
  outcome_of r = Returned tt
  ∧ (∃ before text,
       trace_of r =
         before ++ [EvIsVerified address (Ok true); EvConsoleLog text])
  ∧ Forall (λ ev, stage ev = StageArguments ∨ stage ev = StageExplorer
                  ∨ stage ev = StageConsole) (trace_of r).
Proof.
  intros r Hin. subst r.
  destruct (task_verify_etherscan env taskArgs s) as [[o s'] t] eqn:H.
  unfold task_verify_etherscan in H. simpl in Hin |- *.
  run_paths.
  all: use_specs; in_trace; try off_stage; try done.
  split; [done|]. split.
  - eexists (_ ++ [_; _]), _. by rewrite <- app_assoc.
  - apply Forall_app. split; [|all_events].
    eapply Forall_impl; [eassumption|]. simpl. auto.
Qed.

(** C3. When no configured compiler version matches the deployed bytecode:
    the versions compared are the configured ones; unless the bytecode is OVM
    bytecode, [CompilerVersionsMismatchError] is thrown with the configured
    versions, the version read from the bytecode and the network name, and
    nothing follows the comparison; when the bytecode is OVM bytecode no
    error is thrown there and the contract is looked up, in inferred mode
    with the empty list of matching versions. *)
Theorem no_matching_version_is_an_error
    (taskArgs : VerifyTaskArgs) (s : State)
    (bytecode : Bytecode) (configured : list string) :
  let r := task_verify_etherscan env taskArgs s in
  let comparison := EvGetMatchingVersions bytecode configured (Ok []) in
  comparison ∈ trace_of r →
  EvGetCompilerVersions (Ok configured) ∈ trace_of r
  ∧ (isOvm bytecode = false →
     outcome_of r =
       Threw (CompilerVersionsMismatchError
                configured (getVersion bytecode) (name (network env)))
     ∧ last (trace_of r) = Some comparison)
  ∧ (isOvm bytecode = true →
     match contract taskArgs with
     | Some contractFQN =>
         ∃ answer, EvArtifactExists contractFQN answer ∈ trace_of r
     | None =>
         ∃ answer,
           EvExtractInferredContractInformation [] bytecode answer
             ∈ trace_of r
     end).
Proof.
  intros r comparison Hin. subst r comparison.
  destruct (task_verify_etherscan env taskArgs s) as [[o s'] t] eqn:H.
  unfold task_verify_etherscan in H. simpl in Hin |- *.
  run_paths.
  all: match goal with
       | H : task_verify_resolve_arguments _ _ _ = _ |- _ =>
           apply resolve_arguments_spec in H as (? & ? & ? & Hargs)
       end.
  all: try match goal with
       | H : task_verify_etherscan_get_contract_information _ _ _ _ _ _ = _
         |- _ =>
           apply get_contract_information_spec in H as (? & ? & Hhead & ?)
       end.
  all: use_specs; in_trace; try off_stage; try done.
  all: split; [find_event|].
  all: split; intros Hovm; simpl in *; rewrite Hovm in *; try done.
  all: try (split; [done|]; by rewrite last_app_cons).
  all: destruct (Hargs _ eq_refl) as [_ Hcontract].
  all: rewrite Hcontract in Hhead.
  all: match goal with
       | E : contract _ = _ |- _ => rewrite E in Hhead
       end.
  all: destruct Hhead as [answer Hhead%head_Some_elem_of].
  all: exists answer; find_event.
Qed.

(** C1. Once the minimal attempt has been polled and answered: on a success
    the request returns normally and nothing else is submitted or polled; on
    a failure exactly one more submission is made, of the full compiler input
    of the resolved contract with the same library table, and then a success
    of that attempt makes the request return normally, while a second
    failure throws [ContractVerificationFailedError] with the message of the
    full attempt and the undetectable libraries of the contract. *)
Theorem minimal_attempt_then_full_attempt
    (taskArgs : VerifyTaskArgs) (s : State)
    (first : EtherscanResponse) (rest : list (Result EtherscanResponse)) :
  let r := task_verify_etherscan env taskArgs s in
  polls (trace_of r) = Ok first :: rest →
  (isSuccess first = true →
   outcome_of r = Returned tt
   ∧ rest = []
   ∧ length (submissions (trace_of r)) = 1)
  ∧ (isSuccess first = false → isFailure first = true →
     ∃ found table built,
       library_lookups (trace_of r) = [(found, Ok table)]
       ∧ built_inputs (trace_of r) = [Ok built]
       ∧ submissions (trace_of r) =
           [JSON_stringify env (assign_libraries built (libraries table));
            JSON_stringify env
              (assign_libraries (compilerInput found) (libraries table))]
       ∧ (length rest ≤ 1)%nat
       ∧ ∀ second, rest = [Ok second] →
           (isSuccess second = true → outcome_of r = Returned tt)
           ∧ (isSuccess second = false → isFailure second = true →
              outcome_of r =
                Threw (ContractVerificationFailedError
                         (message second) (undetectableLibraries table)))).
Proof.
  intros r Hpolls. subst r.
  destruct (task_verify_etherscan env taskArgs s) as [[o s'] t] eqn:H.
  simpl in *.
  apply verify_etherscan_submissions in H
    as [[_ Hnone] | (found & table & built & Hlookup & Hbuilt & Hcases)].
  { by rewrite Hnone in Hpolls. }
  simpl in Hcases.
  destruct Hcases
    as [(Hsub & o1 & Hend & Ho)
       | (Hsub & status & answers & o2 & Hp & Hs & Hf & Hend & Ho)].
  - rewrite Hpolls in Hend. destruct rest; simpl in Hend; [|done]. subst o1.
    split.
    + intros Hsuccess. rewrite Hsuccess, orb_true_r in Ho.
      by rewrite Hsub; destruct Ho as [_ ->].
    + intros Hsuccess Hfailure. rewrite Hsuccess, Hfailure in Ho. simpl in Ho.
      by destruct Ho.
  - rewrite Hpolls in Hp. simplify_eq.
    split; [intros Hsuccess; congruence|].
    intros _ _. exists found, table, built.
    repeat (split; [done|]).
    split.
    + destruct answers as [|[?|?] [|]]; simpl in *; done || lia.
    + intros second ->. simpl in Hend. subst o2.
      split.
      * intros Hsuccess. by rewrite Hsuccess, orb_true_r.
      * intros Hsuccess Hfailure. by rewrite Hsuccess, Hfailure.
Qed.

(** C7. Whenever a request submits anything, the contract, its library table
    and the minimal input are resolved, and what is submitted is the
    serialization of the minimal input, then possibly that of the full
    input of the contract, each with the resolved library table written into
    its settings: the attempts are submitted with the same linked
    libraries. *)
Theorem submissions_carry_the_resolved_libraries
    (taskArgs : VerifyTaskArgs) (s : State) :
  let r := task_verify_etherscan env taskArgs s in
  submissions (trace_of r) ≠ [] →
  ∃ found table built,
    library_lookups (trace_of r) = [(found, Ok table)]
    ∧ built_inputs (trace_of r) = [Ok built]
    ∧ let minimal := assign_libraries built (libraries table) in
      let full := assign_libraries (compilerInput found) (libraries table) in
      (submissions (trace_of r) = [JSON_stringify env minimal]
       ∨ submissions (trace_of r) =
           [JSON_stringify env minimal; JSON_stringify env full])
      ∧ settings_libraries (settings minimal) = Some (libraries table)
      ∧ settings_libraries (settings full) = Some (libraries table).
Proof.
  intros r Hsome. subst r.
  destruct (task_verify_etherscan env taskArgs s) as [[o s'] t] eqn:H.
  simpl in *.
  apply verify_etherscan_submissions in H
    as [[Hnone _] | (found & table & built & Hlookup & Hbuilt & Hcases)];
    [done|].
  exists found, table, built. simpl in *.
  repeat (split; [done|]).
  split; [|done].
  destruct Hcases as [[-> _] | [-> _]]; auto.
Qed.

(** ** TASK_VERIFY *)

(** Proves a property of every event of a trace made of subtask traces and
    single events. *)
Ltac all_stages :=
  repeat first
    [ apply Forall_nil_2
    | apply Forall_app_2
    | apply Forall_cons_2; [solve [simpl; auto]|]
    | eapply Forall_impl;
        [eassumption
        |let ev := fresh in let Hs := fresh in
         intros ev Hs; simpl in *;
         solve [ by rewrite Hs | by destruct Hs as [Hs | Hs]; rewrite Hs ]] ].

Lemma verify_etherscan_stage taskArgs s o s' t :
  task_verify_etherscan env taskArgs s = (o, s', t) →
  Forall (λ ev, stage ev ≠ StageBatch) t ∧ (∀ code, o ≠ Exited code).
Proof.
  unfold task_verify_etherscan. intros H.
  run_paths.
  all: use_specs.
  all: try by match goal with
              | H : ∀ code, Exited ?c ≠ Exited code |- _ => destruct (H c)
              end.
  all: split; [all_stages | done].
Qed.

Lemma dispatch_spec task taskArgs s o s' t :
  dispatch env task taskArgs s = (o, s', t) →
  Forall (λ ev, stage ev ≠ StageBatch) t ∧ (∀ code, o ≠ Exited code).
Proof.
  unfold dispatch. intros H.
  repeat case_decide.
  - by eapply verify_etherscan_stage.
  - unfold task_verify_sourcify_disabled_warning in H. run_paths.
    simplify_eq. split; [all_stages | done].
  - run_paths; (split; [all_stages | done]).
Qed.

Lemma run_spec task taskArgs s :
  ∃ o s' t,
    run env task taskArgs s
    = (o, s', [EvTaskStart task] ++ t ++ [EvTaskEnd task o])
    ∧ Forall (λ ev, stage ev ≠ StageBatch) t
    ∧ (∀ code, o ≠ Exited code).
Proof.
  unfold run.
  destruct (dispatch env task taskArgs s) as [[o s'] t] eqn:H.
  apply dispatch_spec in H as [? ?]. by exists o, s', t.
Qed.

(** Puts the observations of the runs of a batch in normal form. *)
Ltac observe_batch :=
  unfold started, ended, failures, reports in *;
  repeat first [ rewrite omap_app | rewrite fmap_app | progress csimpl ];
  repeat match goal with
  | F : Forall ?P ?t |- context [omap ?f ?t] =>
      rewrite (omap_off f P t F)
        by (let ev := fresh in let Hs := fresh in
            intros ev Hs; destruct ev; simpl in *;
            solve [ done | by destruct Hs ])
  end;
  csimpl; rewrite ?app_nil_r.

Lemma run_verification_subtasks_spec verificationSubtasks :
  ∀ taskArgs errors hasErrors s o s' t,
    run_verification_subtasks env verificationSubtasks taskArgs
      errors hasErrors s = (o, s', t) →
    started t = verificationSubtasks
    ∧ (ended t).*1 = verificationSubtasks
    ∧ reports t = []
    ∧ o = Returned (record_failures errors (failures t),
                    hasErrors || bool_decide (failures t ≠ [])).
Proof.
  induction verificationSubtasks as [|task rest IH];
    intros taskArgs errors hasErrors s o s' t H.
  - simpl in H. unfold_M. simplify_eq. by rewrite orb_false_r.
  - simpl in H. unfold_M.
    destruct (run_spec task taskArgs s) as (o1 & s1 & t1 & Hrun & Hfree & Hexit).
    rewrite Hrun in H. clear Hrun.
    destruct o1 as [[]|e|code]; [| |by destruct (Hexit code)]; simpl in H.
    + destruct (run_verification_subtasks env rest taskArgs errors hasErrors s1)
        as [[o2 s2] t2] eqn:Hrest.
      apply IH in Hrest as (Hstarted & Hended & Hreports & ->).
      simplify_eq. rewrite app_nil_r.
      observe_batch. repeat split; congruence.
    + destruct (run_verification_subtasks env rest taskArgs
                  (<[task:=e]> errors) true s1)
        as [[o2 s2] t2] eqn:Hrest.
      apply IH in Hrest as (Hstarted & Hended & Hreports & ->).
      simplify_eq.
      observe_batch. rewrite orb_true_r. repeat split; congruence.
Qed.

Lemma record_failures_lookup (failed : list (string * Exception)) :
  ∀ (errors : gmap string Exception), NoDup failed.*1 →
  ∀ task e,
    record_failures errors failed !! task = Some e
    ↔ (task, e) ∈ failed ∨ ((task ∉ failed.*1) ∧ errors !! task = Some e).
Proof.
  induction failed as [|[k v] failed IH]; intros errors Hkeys task e.
  - simpl. split; [intros ?; right; split; [apply not_elem_of_nil|done]|].
    intros [Hin | [_ ?]]; [by apply elem_of_nil in Hin | done].
  - simpl in *. apply NoDup_cons in Hkeys as [Hfresh Hkeys].
    unfold record_failures in *. simpl. rewrite (IH _ Hkeys).
    rewrite elem_of_cons, not_elem_of_cons, lookup_insert.
    assert (∀ x, (k, x) ∉ failed) as Hnone.
    { intros x Hin. apply Hfresh.
      by eapply (list_elem_of_fmap_2' fst); [exact Hin|]. }
    case_decide as Hk; [subst task|]; naive_solver.
Qed.

Lemma failures_keys (t : list Event) :
  (failures t).*1 `sublist_of` (ended t).*1.
Proof.
  induction t as [|ev t IH]; [done|].
  destruct ev; try exact IH.
  unfold failures, ended in *. csimpl.
  destruct o; csimpl; by constructor.
Qed.

(** C6. With the networks not being listed and the names of the Etherscan
    subtask and of the two Sourcify subtasks distinct: every verification
    subtask is started and comes to its end, in the order given by
    [TASK_VERIFY_GET_VERIFICATION_SUBTASKS], whether or not an earlier one
    threw; when none threw nothing is reported and the task returns
    normally; when some threw, the task ends the process with status 1 after
    one report, printed after all the runs, that holds under the name of each
    subtask that threw exactly the exception it threw. *)
Theorem failures_are_collected_and_reported_together
    (taskArgs : VerifyTaskArgs) (s : State) :
  listNetworks taskArgs = false →
  TASK_VERIFY_ETHERSCAN env ≠ TASK_VERIFY_SOURCIFY env →
  TASK_VERIFY_ETHERSCAN env ≠ TASK_VERIFY_SOURCIFY_DISABLED_WARNING env →
  let r := task_verify env taskArgs s in
  ∃ verificationSubtasks,
    outcome_of (task_verify_get_verification_subtasks env s)
      = Returned verificationSubtasks
    ∧ started (trace_of r) = verificationSubtasks
    ∧ (ended (trace_of r)).*1 = verificationSubtasks
    ∧ (failures (trace_of r) = [] →
       outcome_of r = Returned tt ∧ reports (trace_of r) = [])
    ∧ (failures (trace_of r) ≠ [] →
       outcome_of r = Exited 1
       ∧ ∃ before errors,
           trace_of r = before ++ [EvPrintVerificationErrors errors]
           ∧ started before = verificationSubtasks
           ∧ (ended before).*1 = verificationSubtasks
           ∧ reports before = []
           ∧ ∀ task e,
               errors !! task = Some e ↔ (task, e) ∈ failures (trace_of r)).
Proof.
  intros Hlist Hsourcify Hwarning r. subst r.
  unfold task_verify. rewrite Hlist.
  unfold task_verify_get_verification_subtasks.
  set (verificationSubtasks :=
         (if sourcify_enabled (sourcify (config env))
          then (if etherscan_enabled (etherscan (config env))
                then [] ++ [TASK_VERIFY_ETHERSCAN env] else [])
               ++ [TASK_VERIFY_SOURCIFY env]
          else (if etherscan_enabled (etherscan (config env))
                then [] ++ [TASK_VERIFY_ETHERSCAN env] else [])
               ++ [TASK_VERIFY_SOURCIFY_DISABLED_WARNING env])).
  assert (NoDup verificationSubtasks) as Hnames.
  { subst verificationSubtasks.
    destruct (sourcify_enabled _), (etherscan_enabled _); simpl;
      repeat constructor; set_solver. }
  exists verificationSubtasks.
  split.
  { unfold_M. by destruct (etherscan_enabled _), (sourcify_enabled _). }
  assert (∃ warning : list Event,
            Forall (λ ev, stage ev ≠ StageBatch) warning
            ∧ ∀ B (f : list string → M B),
                (task_verify_get_verification_subtasks env ≫= f) s
                = let '(o, s', t) := f verificationSubtasks s in
                  (o, s', warning ++ t)) as (warning & Hwarn & Hsubtasks).
  { unfold task_verify_get_verification_subtasks. subst verificationSubtasks.
    destruct (etherscan_enabled _), (sourcify_enabled _).
    1-3: exists []; split; [done|]; intros; unfold_M; simpl;
         by destruct (f _ s) as [[[] ?] ?].
    exists [EvConsoleWarn
              "WARNING: No verification services are enabled. Please enable at least one verification service in your configuration."].
    split; [all_stages|]. intros; unfold_M; simpl.
    by destruct (f _ s) as [[[] ?] ?]. }
  unfold task_verify_get_verification_subtasks in Hsubtasks.
  rewrite Hsubtasks. clear Hsubtasks.
  rewrite run_bind.
  destruct (run_verification_subtasks env verificationSubtasks taskArgs ∅ false s)
    as [[o2 s2] t2] eqn:Hloop.
  apply run_verification_subtasks_spec in Hloop
    as (Hstarted & Hended & Hreports & ->).
  pose proof (failures_keys t2) as Hkeys.
  rewrite Hended in Hkeys. apply sublist_NoDup in Hkeys; [|done].
  simpl. destruct (failures t2) as [|failure failed] eqn:Hfailures.
  - simpl. unfold_M. simpl. rewrite app_nil_r.
    observe_batch. rewrite Hfailures.
    split; [done|]. split; [done|]. split; [by intros _|]. by intros [].
  - simpl. unfold_M. simpl.
    split; [by observe_batch|]. split; [by observe_batch|].
    split; [by observe_batch; rewrite Hfailures|].
    intros _. split; [done|].
    eexists (warning ++ t2), _. split; [by rewrite (assoc_L (++))|].
    split; [by observe_batch|]. split; [by observe_batch|].
    split; [by observe_batch|].
    intros task e. observe_batch. rewrite Hfailures.
    change (record_failures (<[failure.1:=failure.2]> ∅) failed)
      with (record_failures ∅ (failure :: failed)).
    rewrite record_failures_lookup by done.
    rewrite lookup_empty. naive_solver.
Qed.

(** * Further properties of the tasks *)

(** ** TASK_VERIFY_RESOLVE_ARGUMENTS *)

(** X1. The arguments are validated before anything is loaded, in this
    order: a missing address throws [MissingAddressError]; an address that
    is not an address throws [InvalidAddressError] with it, whatever the
    contract name; then a contract name that is not fully qualified throws
    [InvalidContractNameError] with it.  In each case no collaborator is
    called and the state is unchanged. *)
Theorem invalid_arguments_are_rejected_first
    (taskArgs : VerifyTaskArgs) (s : State) :
  let r := task_verify_resolve_arguments env taskArgs s in
  match address taskArgs with
  | None => r = (Threw MissingAddressError, s, [])
  | Some given =>
      if isAddress env given then
        ∀ name, contract taskArgs = Some name →
                isFullyQualifiedName env name = false →
                r = (Threw (InvalidContractNameError name), s, [])
      else r = (Threw (InvalidAddressError given), s, [])
  end.
Proof.
  unfold task_verify_resolve_arguments.
  destruct (address taskArgs) as [given|]; [|done].
  destruct (isAddress env given); [|done].
  intros name -> Hname. unfold_M. simpl. by rewrite Hname.
Qed.

(** X2. Arguments that are resolved are valid: the address was given and is
    an address, the contract name is the one given and, when given, is fully
    qualified, and the constructor arguments are those resolved from the
    parameters and the module given. *)
Theorem resolved_arguments_are_valid
    (taskArgs : VerifyTaskArgs) (s : State) (args : VerificationArgs) :
  let r := task_verify_resolve_arguments env taskArgs s in
  outcome_of r = Returned args →
  address taskArgs = Some (args_address args)
  ∧ isAddress env (args_address args) = true
  ∧ args_contractFQN args = contract taskArgs
  ∧ (∀ name, contract taskArgs = Some name →
             isFullyQualifiedName env name = true)
  ∧ EvResolveConstructorArguments
      (constructorArgsParams taskArgs) (constructorArgs taskArgs)
      (Ok (args_constructorArgs args)) ∈ trace_of r.
Proof.
  intros r. subst r. unfold task_verify_resolve_arguments.
  destruct (address taskArgs) as [given|]; [|done].
  destruct (isAddress env given) eqn:Hgiven; [|done].
  destruct (contract taskArgs) as [name|];
    [destruct (isFullyQualifiedName env name) eqn:Hname; [|done]|].
  all: unfold_M; simpl.
  all: repeat (split_innermost; simplify_eq/=); try done.
  all: intros [= <-]; simpl.
  all: repeat split; try done; try find_event.
  all: by intros ? [= <-].
Qed.

(** X3. Libraries given as a dictionary are used as they are: no libraries
    module is resolved, and the resolved arguments carry the dictionary. *)
Theorem dictionary_libraries_are_used_as_given
    (taskArgs : VerifyTaskArgs) (s : State) (dictionary : LibraryToAddress) :
  taskArgs_libraries taskArgs = LibrariesObject dictionary →
  let r := task_verify_resolve_arguments env taskArgs s in
  (∀ path answer, EvResolveLibraries path answer ∉ trace_of r)
  ∧ (∀ args, outcome_of r = Returned args → args_libraries args = dictionary).
Proof.
  intros Hlibraries r. subst r. unfold task_verify_resolve_arguments.
  rewrite Hlibraries.
  split.
  - intros path answer Hin. run_paths; in_trace.
  - intros args. run_paths; by intros [= <-].
Qed.

(** ** TASK_VERIFY_ETHERSCAN_GET_CONTRACT_INFORMATION *)

(** X4. In named mode, when the artifact exists but has no build info,
    [BuildInfoNotFoundError] with the fully qualified name is thrown and the
    load of the build info is the last interaction. *)
Theorem missing_build_info_is_an_error
    (contractFQN : string) (deployedBytecode : Bytecode)
    (matchingCompilerVersions : list string) (libraries : LibraryToAddress)
    (s : State) :
  let r := task_verify_etherscan_get_contract_information env
             (Some contractFQN) deployedBytecode matchingCompilerVersions
             libraries s in
  EvGetBuildInfo contractFQN (Ok None) ∈ trace_of r →
  outcome_of r = Threw (BuildInfoNotFoundError contractFQN)
  ∧ last (trace_of r) = Some (EvGetBuildInfo contractFQN (Ok None)).
Proof.
  intros r Hin. subst r.
  unfold task_verify_etherscan_get_contract_information in *.
  run_paths; in_trace; done.
Qed.

(** X5. In inferred mode the artifacts are asked once, with the matching
    versions and the deployed bytecode as given (be the list empty), and
    nothing else is checked: when the inference throws, its exception is the
    outcome; otherwise the only other interaction is the resolution of the
    libraries of the contract found, with the libraries given. *)
Theorem inferred_mode_asks_the_artifacts_once
    (deployedBytecode : Bytecode) (matchingCompilerVersions : list string)
    (libraries : LibraryToAddress) (s : State) :
  let r := task_verify_etherscan_get_contract_information env
             None deployedBytecode matchingCompilerVersions libraries s in
  ∃ answer,
    head (trace_of r) =
      Some (EvExtractInferredContractInformation
              matchingCompilerVersions deployedBytecode answer)
    ∧ match answer with
      | Err e => outcome_of r = Threw e ∧ length (trace_of r) = 1
      | Ok found =>
          ∃ table,
            trace_of r =
              [EvExtractInferredContractInformation
                 matchingCompilerVersions deployedBytecode (Ok found);
               EvGetLibraryInformation found libraries table]
      end.
Proof.
  intros r. subst r.
  unfold task_verify_etherscan_get_contract_information.
  run_paths; eexists; (split; [done|]); simpl; eauto.
Qed.


(** ** TASK_VERIFY_ETHERSCAN_GET_MINIMAL_INPUT *)

(** X7. The minimal input returned is a fresh copy: a reference to no object
    of the store before, holding the compiler input built for the job of the
    one resolved file with the requested name, while every object already
    in the store is left as it was. *)
Theorem minimal_input_is_a_fresh_copy
    (sourceName : string) (s : State) (input : Ref) :
  let r := task_verify_etherscan_get_minimal_input env sourceName s in
  outcome_of r = Returned input →
  heap s !! input = None
  ∧ (∀ other content,
       heap s !! other = Some content →
       heap (state_of r) !! other = Some content)
  ∧ ∃ graph file job built,
      files_named sourceName graph = [file]
      ∧ trace_of r =
          [EvGetDependencyGraph [sourceName] (Ok graph);
           EvGetCompilationJobForFile graph file (Ok job);
           EvGetCompilerInput job (Ok built)]
      ∧ heap (state_of r) !! input = Some built.
Proof.
  intros r. subst r.
  unfold task_verify_etherscan_get_minimal_input, files_named.
  run_paths; try done.
  all: intros [= <-].
  all: split; [by apply lookup_ge_None_2|].
  all: split; [by intros; apply lookup_app_l_Some|].
  all: match goal with
       | H : negb (length ?files =? 0)%nat = false |- _ =>
           destruct files; [|done]
       end.
  all: eexists _, _, _, _; split; [eassumption|]; split; [done|].
  all: by apply list_lookup_middle.
Qed.

(** ** TASK_VERIFY_ETHERSCAN_ATTEMPT_VERIFICATION *)

(** X8. An attempt changes the store in one place only: the compiler input
    it is given gets the libraries of the contract information in its
    settings, keeping its language, sources and other settings, whether the
    attempt returns or throws; every other object is left as it was. *)
Theorem attempt_changes_only_the_libraries
    (address : string) (input : Ref)
    (contractInformation : ExtendedContractInformation)
    (verificationInterface : Etherscan) (encodedConstructorArguments : string)
    (s : State) (content : CompilerInput) :
  heap s !! input = Some content →
  let r := task_verify_etherscan_attempt_verification env
             address input contractInformation verificationInterface
             encodedConstructorArguments s in
  ∃ sent,
    heap (state_of r) !! input = Some sent
    ∧ settings_libraries (settings sent) =
        Some (libraries (libraryInformation_of contractInformation))
    ∧ language sent = language content
    ∧ sources sent = sources content
    ∧ settings_other (settings sent) = settings_other (settings content)
    ∧ ∀ other, other ≠ input →
        heap (state_of r) !! other = heap s !! other.
Proof.
  intros Hcontent r. subst r.
  destruct (task_verify_etherscan_attempt_verification env
              address input contractInformation verificationInterface
              encodedConstructorArguments s) as [[o s'] t] eqn:H.
  eapply attempt_verification_spec in H as (_ & _ & Hheap & _); [|done].
  unfold state_of. simpl. rewrite Hheap.
  eexists. split.
  - apply list_lookup_insert_eq. by eapply lookup_lt_Some.
  - repeat (split; [done|]).
    intros other Hother. by apply list_lookup_insert_ne.
Qed.

(** X9. An attempt that returns reports the verdict polled: there was one
    poll, answered by a status that is a success or a failure; the response
    is a success exactly when the status is, and carries its message; and
    unless it is a success the poll is the last interaction. *)
Theorem attempt_returns_the_polled_verdict
    (address : string) (input : Ref)
    (contractInformation : ExtendedContractInformation)
    (verificationInterface : Etherscan) (encodedConstructorArguments : string)
    (s : State) (response : VerificationResponse) :
  let r := task_verify_etherscan_attempt_verification env
             address input contractInformation verificationInterface
             encodedConstructorArguments s in
  outcome_of r = Returned response →
  ∃ guid status,
    polls (trace_of r) = [Ok status]
    ∧ polled (trace_of r) = [guid]
    ∧ success response = isSuccess status
    ∧ response_message response = message status
    ∧ (isSuccess status = true ∨ isFailure status = true)
    ∧ (isSuccess status = false →
       last (trace_of r) = Some (EvGetVerificationStatus guid (Ok status))).
Proof.
  intros r. subst r.
  unfold task_verify_etherscan_attempt_verification.
  run_paths; try done.
  all: intros [= <-]; eexists _, _; repeat (split; [done|]).
  all: repeat match goal with
       | status : EtherscanResponse |- _ => destruct status as [? [|] [|]]
       end; simplify_eq/=; split; auto; done.
Qed.

(** X10. What an attempt submits and polls: every submission is for the
    address given, under the name [sourceName:contractName] of the contract,
    with the compiler version prefixed by [v] and the encoded constructor
    arguments given; when the submission throws, its exception is the outcome
    and nothing is polled; otherwise the token polled is the message of the
    submission's response, after a pause of 700 milliseconds. *)
Theorem attempt_polls_the_token_of_its_submission
    (address : string) (input : Ref)
    (contractInformation : ExtendedContractInformation)
    (verificationInterface : Etherscan) (encodedConstructorArguments : string)
    (s : State)
    (to code name version arguments : string)
    (answer : Result EtherscanResponse) :
  let r := task_verify_etherscan_attempt_verification env
             address input contractInformation verificationInterface
             encodedConstructorArguments s in
  let information := contractInformation_of contractInformation in
  EvVerify to code name version arguments answer ∈ trace_of r →
  to = address
  ∧ name = sourceName information +:+ ":" +:+ contractName information
  ∧ version = "v" +:+ solcLongVersion information
  ∧ arguments = encodedConstructorArguments
  ∧ match answer with
    | Err e => outcome_of r = Threw e ∧ polled (trace_of r) = []
    | Ok response =>
        polled (trace_of r) = [message response]
        ∧ EvSleep 700 ∈ trace_of r
    end.
Proof.
  intros r information Hin. subst r information.
  unfold task_verify_etherscan_attempt_verification in *.
  run_paths; in_trace; try done.
  all: repeat split; try done.
  all: find_event.
Qed.

(** ** TASK_VERIFY_ETHERSCAN, further *)

Lemma attempt_ends_length answers o :
  attempt_ends answers o → (length answers ≤ 1)%nat.
Proof.
  destruct answers as [|[status|e] [|]]; simpl; intros H;
    first [ lia | destruct H ].
Qed.

(** X11. A request makes at most two submissions, and never polls more
    often than it submits. *)
Theorem at_most_two_attempts (taskArgs : VerifyTaskArgs) (s : State) :
  let r := task_verify_etherscan env taskArgs s in
  (length (submissions (trace_of r)) ≤ 2)%nat
  ∧ (length (polls (trace_of r)) ≤ length (submissions (trace_of r)))%nat.
Proof.
  intros r. subst r.
  destruct (task_verify_etherscan env taskArgs s) as [[o s'] t] eqn:H.
  simpl.
  apply verify_etherscan_submissions in H
    as [[-> ->] | (found & table & built & _ & _ & Hcases)]; [simpl; lia|].
  simpl in Hcases.
  destruct Hcases
    as [(-> & o1 & Hend & _) | (-> & status & answers & o2 & -> & _ & _ & Hend & _)];
    apply attempt_ends_length in Hend; simpl in *; lia.
Qed.

(** X12. The full compiler input is submitted only after the minimal attempt
    was polled and answered by a failure: an exception of the submission or
    of the poll, or an unexpected status, is not followed by a second
    attempt. *)
Theorem only_a_reported_failure_is_retried
    (taskArgs : VerifyTaskArgs) (s : State) :
  let r := task_verify_etherscan env taskArgs s in
  (1 < length (submissions (trace_of r)))%nat →
  ∃ status answers,
    polls (trace_of r) = Ok status :: answers
    ∧ isSuccess status = false
    ∧ isFailure status = true.
Proof.
  intros r Hsecond. subst r.
  destruct (task_verify_etherscan env taskArgs s) as [[o s'] t] eqn:H.
  simpl in *.
  apply verify_etherscan_submissions in H
    as [[Hnone _] | (found & table & built & _ & _ & Hcases)].
  { rewrite Hnone in Hsecond. simpl in Hsecond. lia. }
  simpl in Hcases.
  destruct Hcases
    as [(Hone & _) | (_ & status & answers & _ & Hpolls & Hs & Hf & _)].
  - rewrite Hone in Hsecond. simpl in Hsecond. lia.
  - by exists status, answers.
Qed.

(** X13. A status that is neither a success nor a failure, polled for
    either attempt, ends the request: [VerificationAPIUnexpectedMessageError]
    with its message is the outcome, it is the last status polled, and
    nothing is submitted after it. *)
Theorem unexpected_status_ends_the_request
    (taskArgs : VerifyTaskArgs) (s : State) (status : EtherscanResponse) :
  let r := task_verify_etherscan env taskArgs s in
  Ok status ∈ polls (trace_of r) →
  isFailure status = false →
  isSuccess status = false →
  outcome_of r = Threw (VerificationAPIUnexpectedMessageError (message status))
  ∧ last (polls (trace_of r)) = Some (Ok status)
  ∧ length (submissions (trace_of r)) = length (polls (trace_of r)).
Proof.
  intros r Hin Hfailure Hsuccess. subst r.
  destruct (task_verify_etherscan env taskArgs s) as [[o s'] t] eqn:H.
  simpl in *.
  apply verify_etherscan_submissions in H
    as [[_ Hnone] | (found & table & built & _ & _ & Hcases)].
  { rewrite Hnone in Hin. by apply elem_of_nil in Hin. }
  simpl in Hcases.
  destruct Hcases
    as [(-> & o1 & Hend & Ho)
       | (-> & first & answers & o2 & Hpolls & Hs & Hf & Hend & ->)].
  - destruct (polls t) as [|[status'|e] [|]]; simpl in Hend; try done;
      in_trace; try discriminate.
    injection Hin as <-.
    rewrite Hfailure, Hsuccess in Hend. simpl in Hend. by subst o1.
  - rewrite Hpolls in *. in_trace; [congruence|].
    destruct answers as [|[status'|e] [|]]; simpl in Hend; try done;
      in_trace; try discriminate.
    injection Hin as <-.
    rewrite Hfailure, Hsuccess in Hend. simpl in Hend. by subst o2.
Qed.

Lemma attempt_verification_events address input contractInformation
    verificationInterface encodedConstructorArguments s o s' t :
  task_verify_etherscan_attempt_verification env
    address input contractInformation verificationInterface
    encodedConstructorArguments s = (o, s', t) →
  let information := contractInformation_of contractInformation in
  Forall (λ ev, stage ev = StageSubmission ∨ stage ev = StageConsole) t
  ∧ Forall (λ to, to = address) (addresses t)
  ∧ ∀ to code name version arguments answer,
      EvVerify to code name version arguments answer ∈ t →
      name = sourceName information +:+ ":" +:+ contractName information
      ∧ version = "v" +:+ solcLongVersion information
      ∧ arguments = encodedConstructorArguments.
Proof.
  unfold task_verify_etherscan_attempt_verification. intros H.
  run_paths.
  all: split; [all_events|].
  all: split; [repeat constructor|].
  all: intros ?????? Hin; in_trace; done.
Qed.

(** X14. A request asks the explorer and the chain about one address only,
    the address given in the task arguments: that is the address checked for
    being verified, the one whose bytecode is fetched and the one of every
    submission. *)
Theorem only_the_given_address_is_used
    (taskArgs : VerifyTaskArgs) (s : State) (asked : string) :
  let r := task_verify_etherscan env taskArgs s in
  asked ∈ addresses (trace_of r) →
  address taskArgs = Some asked.
Proof.
  intros r Hin. subst r.
  destruct (task_verify_etherscan env taskArgs s) as [[o s'] t] eqn:H.
  unfold task_verify_etherscan in H. simpl in Hin.
  run_paths.
  all: repeat match goal with
       | H : task_verify_resolve_arguments _ _ _ = _ |- _ =>
           apply resolve_arguments_spec in H as (? & ? & ? & Hargs)
       | H : task_verify_etherscan_get_contract_information _ _ _ _ _ _ = _
         |- _ =>
           apply get_contract_information_spec in H as (? & ? & ? & ?)
       | H : task_verify_etherscan_get_minimal_input _ _ _ = _ |- _ =>
           apply get_minimal_input_spec in H as (? & ? & ?)
       | H : task_verify_etherscan_attempt_verification _ _ _ _ _ _ _ = _
         |- _ =>
           apply attempt_verification_events in H as (_ & ? & _)
       end.
  all: unfold addresses in *.
  all: repeat first [ rewrite omap_app in Hin | progress csimpl in Hin ].
  all: repeat match goal with
       | F : Forall ?P ?t, Hin : context [omap ?f ?t] |- _ =>
           rewrite (omap_off f P t F) in Hin
             by (let ev := fresh in let Hs := fresh in
                 intros ev Hs; destruct ev; simpl in *;
                 solve [ done | destruct Hs; done ])
       end.
  all: simpl in Hin.
  all: try (destruct (Hargs _ eq_refl) as [Haddress _]).
  all: in_trace; try congruence.
  all: match goal with
       | F : Forall _ ?l, Hin : _ ∈ ?l |- _ =>
           rewrite Forall_forall in F; apply F in Hin; congruence
       end.
Qed.

(** X15. Every submission of a request describes the contract resolved for
    it: its name is [sourceName:contractName] of that contract, its compiler
    version the long version of the contract prefixed by [v], and its
    constructor arguments are those encoded for that contract. *)
Theorem submissions_describe_the_resolved_contract
    (taskArgs : VerifyTaskArgs) (s : State)
    (to code name version arguments : string)
    (answer : Result EtherscanResponse) :
  let r := task_verify_etherscan env taskArgs s in
  EvVerify to code name version arguments answer ∈ trace_of r →
  ∃ found table,
    library_lookups (trace_of r) = [(found, Ok table)]
    ∧ name = sourceName found +:+ ":" +:+ contractName found
    ∧ version = "v" +:+ solcLongVersion found
    ∧ ∃ values,
        EvEncodeArguments (sourceName found) (contractName found) values
          (Ok arguments) ∈ trace_of r.
Proof.
  intros r Hin. subst r.
  destruct (task_verify_etherscan env taskArgs s) as [[o s'] t] eqn:H.
  unfold task_verify_etherscan in H. simpl in Hin |- *.
  run_paths.
  all: repeat match goal with
       | H : task_verify_resolve_arguments _ _ _ = _ |- _ =>
           apply resolve_arguments_spec in H as (? & ? & ? & ?)
       | H : task_verify_etherscan_get_contract_information _ _ _ _ _ _ = _
         |- _ =>
           apply get_contract_information_spec in H as (? & ? & ? & Hfound)
       | H : task_verify_etherscan_get_minimal_input _ _ _ = _ |- _ =>
           apply get_minimal_input_spec in H as (? & ? & ?)
       | H : task_verify_etherscan_attempt_verification _ _ _ _ _ _ _ = _
         |- _ =>
           apply attempt_verification_events in H as (? & _ & ?)
       end.
  all: in_trace; try off_stage; try done.
  all: destruct (Hfound _ eq_refl) as (found & table & ? & -> & ?).
  all: simpl in *.
  all: match goal with
       | F : ∀ to code name version arguments answer,
               EvVerify _ _ _ _ _ _ ∈ ?l → _,
         Hin : EvVerify _ _ _ _ _ _ ∈ ?l |- _ =>
           destruct (F _ _ _ _ _ _ Hin) as (-> & -> & ->)
       end.
  all: exists found, table.
  all: split; [by observe|].
  all: split; [done|]; split; [done|].
  all: eexists; find_event.
Qed.

(** ** TASK_VERIFY_VERIFY *)

Lemma verify_etherscan_arguments taskArgs s o s' t :
  task_verify_etherscan env taskArgs s = (o, s', t) →
  ∀ ev, ev ∈ t → stage ev = StageArguments →
        ev ∈ trace_of (task_verify_resolve_arguments env taskArgs s).
Proof.
  unfold task_verify_etherscan. intros H ev Hin Hstage.
  run_paths.
  all: repeat match goal with
       | H : task_verify_etherscan_get_contract_information _ _ _ _ _ _ = _
         |- _ =>
           apply get_contract_information_spec in H as (? & ? & ? & ?)
       | H : task_verify_etherscan_get_minimal_input _ _ _ = _ |- _ =>
           apply get_minimal_input_spec in H as (? & ? & ?)
       | H : task_verify_etherscan_attempt_verification _ _ _ _ _ _ _ = _
         |- _ =>
           apply attempt_verification_stage in H as (? & ?)
       end.
  all: in_trace; try done.
  all: match goal with
       | F : Forall _ ?l, Hin : _ ∈ ?l |- _ =>
           rewrite Forall_forall in F; apply F in Hin;
           solve [ congruence | destruct Hin; congruence ]
       end.
Qed.

(** X16. The subtask kept for scripts checks its two values first, the
    constructor arguments before the libraries, and throws without any
    interaction when one is not of the right kind; and a request made
    through it loads no module: the libraries are never resolved, and the
    constructor arguments are resolved from the array given, without a
    module. *)
Theorem verify_subtask_loads_no_module (args : VerifySubtaskArgs) (s : State) :
  let r := task_verify_verify env args s in
  match constructorArguments args, subtask_libraries args with
  | ArgumentsNotArray, _ =>
      r = (Threw InvalidConstructorArgumentsError, s, [])
  | ArgumentsArray _, (LibrariesArray | LibrariesNotObject) =>
      r = (Threw InvalidLibrariesError, s, [])
  | ArgumentsArray items, LibrariesDictionary _ =>
      (∀ path answer, EvResolveLibraries path answer ∉ trace_of r)
      ∧ (∀ params module answer,
           EvResolveConstructorArguments params module answer ∈ trace_of r →
           params = items ∧ module = None)
  end.
Proof.
  intros r. subst r. unfold task_verify_verify.
  destruct (constructorArguments args) as [items|]; [|done].
  destruct (subtask_libraries args) as [dictionary| |]; [|done..].
  set (taskArgs := {| address := subtask_address args;
                      constructorArgsParams := items;
                      constructorArgs := None;
                      taskArgs_libraries := LibrariesObject dictionary;
                      contract := subtask_contract args;
                      listNetworks := false |}).
  destruct (task_verify_etherscan env taskArgs s) as [[o s'] t] eqn:H.
  pose proof (verify_etherscan_arguments _ _ _ _ _ H) as Hfrom.
  simpl. clear H.
  split.
  - intros path answer Hin. apply Hfrom in Hin; [|done].
    unfold task_verify_resolve_arguments in Hin. simpl in Hin.
    run_paths; in_trace.
  - intros params module answer Hin. apply Hfrom in Hin; [|done].
    unfold task_verify_resolve_arguments in Hin. simpl in Hin.
    run_paths; in_trace; done.
Qed.

(** ** TASK_VERIFY, further *)

Lemma get_verification_subtasks_spec (s : State) :
  ∃ warning,
    task_verify_get_verification_subtasks env s =
      (Returned
         ((if etherscan_enabled (etherscan (config env))
           then [TASK_VERIFY_ETHERSCAN env] else [])
          ++ [if sourcify_enabled (sourcify (config env))
              then TASK_VERIFY_SOURCIFY env
              else TASK_VERIFY_SOURCIFY_DISABLED_WARNING env]),
       s, warning)
    ∧ Forall (λ ev, stage ev = StageConsole) warning.
Proof.
  unfold task_verify_get_verification_subtasks. unfold_M.
  destruct s as [w h].
  destruct (etherscan_enabled _), (sourcify_enabled _); simpl;
    eexists; (split; [reflexivity|]); all_events.
Qed.

Lemma record_failures_keys (failed : list (string * Exception)) :
  ∀ (errors : gmap string Exception) task,
    is_Some (record_failures errors failed !! task)
    ↔ task ∈ failed.*1 ∨ is_Some (errors !! task).
Proof.
  induction failed as [|[k v] failed IH]; intros errors task.
  - simpl. rewrite elem_of_nil. naive_solver.
  - unfold record_failures in *. simpl. rewrite IH.
    rewrite elem_of_cons, lookup_insert_is_Some. simpl.
    destruct (decide (k = task)); naive_solver.
Qed.

Lemma record_failures_values (failed : list (string * Exception)) :
  ∀ (errors : gmap string Exception) task e,
    record_failures errors failed !! task = Some e →
    (task, e) ∈ failed ∨ errors !! task = Some e.
Proof.
  induction failed as [|[k v] failed IH]; intros errors task e Hlookup.
  - by right.
  - unfold record_failures in *. simpl in Hlookup.
    apply IH in Hlookup as [Hin | Hlookup].
    + left. by apply list_elem_of_further.
    + apply lookup_insert_Some in Hlookup as [[<- <-] | [_ ?]].
      * left. apply list_elem_of_here.
      * by right.
Qed.


(** X17. When the networks are listed nothing is verified: the supported
    networks are printed, with the custom chains of the configuration, and
    that is the only interaction, whatever the other arguments; no subtask is
    started and no address is asked for. *)
Theorem listing_networks_verifies_nothing
    (taskArgs : VerifyTaskArgs) (s : State) :
  listNetworks taskArgs = true →
  let r := task_verify env taskArgs s in
  ∃ answer,
    printSupportedNetworks env (customChains (etherscan (config env))) (world s)
      = (answer, world (state_of r))
    ∧ trace_of r = [EvPrintSupportedNetworks answer]
    ∧ outcome_of r = match answer with
                     | Ok _ => Returned tt
                     | Err e => Threw e
                     end
    ∧ heap (state_of r) = heap s.
Proof.
  intros Hlist r. subst r. unfold task_verify. rewrite Hlist.
  unfold task_verify_print_supported_networks. unfold_M.
  destruct (printSupportedNetworks env _ (world s)) as [[[]|e] w];
    by eexists.
Qed.

(** X18. When the networks are not listed the task never throws, whatever
    the subtasks do and whatever they are named: either no run threw, and it
    returns normally without a report, or it ends the process with status 1
    after a report printed last.  The report names exactly the subtasks that
    threw, each with an exception thrown by a run of that name. *)
Theorem batch_returns_or_exits (taskArgs : VerifyTaskArgs) (s : State) :
  listNetworks taskArgs = false →
  let r := task_verify env taskArgs s in
  (outcome_of r = Returned tt
   ∧ failures (trace_of r) = []
   ∧ reports (trace_of r) = [])
  ∨ (outcome_of r = Exited 1
     ∧ failures (trace_of r) ≠ []
     ∧ ∃ errors,
         last (trace_of r) = Some (EvPrintVerificationErrors errors)
         ∧ reports (trace_of r) = [errors]
         ∧ (∀ task, is_Some (errors !! task)
                    ↔ task ∈ (failures (trace_of r)).*1)
         ∧ (∀ task e, errors !! task = Some e →
                      (task, e) ∈ failures (trace_of r))).
Proof.
  intros Hlist r. subst r. unfold task_verify. rewrite Hlist.
  destruct (get_verification_subtasks_spec s) as (warning & Hget & Hwarn).
  rewrite run_bind, Hget. rewrite run_bind.
  destruct (run_verification_subtasks env _ taskArgs ∅ false s)
    as [[o2 s2] t2] eqn:Hloop.
  apply run_verification_subtasks_spec in Hloop
    as (Hstarted & Hended & Hreports & ->).
  simpl. destruct (failures t2) as [|failure failed] eqn:Hfailures.
  - left. simpl. unfold_M. simpl. rewrite app_nil_r.
    observe_batch. by rewrite Hfailures.
  - right. simpl. unfold_M. simpl.
    split; [done|].
    split; [observe_batch; by rewrite Hfailures|].
    eexists. split.
    { by rewrite (assoc_L (++)), last_snoc. }
    split; [observe_batch; by rewrite Hreports|].
    split.
    + intros task.
      pose proof (record_failures_keys (failure :: failed) ∅ task) as Hkeys.
      rewrite lookup_empty in Hkeys.
      observe_batch. rewrite Hfailures.
      split.
      * intros Hsome. by apply Hkeys in Hsome as [? | [? ?]].
      * intros Hin. apply Hkeys. by left.
    + intros task e Hlookup.
      apply (record_failures_values (failure :: failed)) in Hlookup
        as [Hin | Hempty]; [|by rewrite lookup_empty in Hempty].
      observe_batch. by rewrite Hfailures.
Qed.

(** X19. With both services disabled the task verifies nothing and returns
    normally: it warns that no verification service is enabled, runs the one
    subtask that warns about Sourcify being disabled, and changes nothing.
    (The name of that subtask is taken to differ from the name of the
    Etherscan subtask.) *)
Theorem nothing_enabled_only_warns (taskArgs : VerifyTaskArgs) (s : State) :
  listNetworks taskArgs = false →
  etherscan_enabled (etherscan (config env)) = false →
  sourcify_enabled (sourcify (config env)) = false →
  TASK_VERIFY_SOURCIFY_DISABLED_WARNING env ≠ TASK_VERIFY_ETHERSCAN env →
  ∃ nothing skipped,
    task_verify env taskArgs s =
      (Returned tt, s,
       [EvConsoleWarn nothing;
        EvTaskStart (TASK_VERIFY_SOURCIFY_DISABLED_WARNING env);
        EvConsoleWarn skipped;
        EvTaskEnd (TASK_VERIFY_SOURCIFY_DISABLED_WARNING env) (Returned tt)]).
Proof.
  intros Hlist Hetherscan Hsourcify Hnames.
  assert (∃ skipped,
            run env (TASK_VERIFY_SOURCIFY_DISABLED_WARNING env) taskArgs s =
              (Returned tt, s,
               [EvTaskStart (TASK_VERIFY_SOURCIFY_DISABLED_WARNING env);
                EvConsoleWarn skipped;
                EvTaskEnd (TASK_VERIFY_SOURCIFY_DISABLED_WARNING env)
                  (Returned tt)])) as [skipped Hrun].
  { unfold run, dispatch.
    rewrite decide_False by done. rewrite decide_True by done.
    unfold task_verify_sourcify_disabled_warning. unfold_M.
    destruct s. by eexists. }
  assert (∃ nothing,
            task_verify_get_verification_subtasks env s =
              (Returned [TASK_VERIFY_SOURCIFY_DISABLED_WARNING env], s,
               [EvConsoleWarn nothing])) as [nothing Hget].
  { unfold task_verify_get_verification_subtasks.
    rewrite Hetherscan, Hsourcify. unfold_M. simpl.
    destruct s. by eexists. }
  exists nothing, skipped.
  unfold task_verify. rewrite Hlist.
  rewrite run_bind, Hget. rewrite run_bind.
  cbn [run_verification_subtasks]. unfold_M. rewrite Hrun. simpl.
  by destruct s.
Qed.


End Properties.

(** * The properties on the concrete project *)

Section Witnesses.

Import Demo.

Ltac not_listed :=
  let Hin := fresh in
  intros Hin;
  repeat (apply elem_of_cons in Hin as [Hin | Hin]; [discriminate Hin|]);
  by apply elem_of_nil in Hin.

(** Both attempts fail: the error carries the message of the full attempt. *)
Lemma minimal_attempt_then_full_attempt_witness :
  let r := task_verify_etherscan (env usual) named_args
             (initial [fail_minimal; fail_full]) in
  polls (trace_of r) = [Ok fail_minimal; Ok fail_full]
  ∧ outcome_of r =
      Threw (ContractVerificationFailedError
               "Fail - Unable to verify (full)" ["ConstructorLib"]).
Proof.
  split; [reflexivity|].
  destruct (minimal_attempt_then_full_attempt (env usual) named_args
              (initial [fail_minimal; fail_full])
              fail_minimal [Ok fail_full] eq_refl) as [_ Hfailure].
  destruct (Hfailure eq_refl eq_refl)
    as (found & table & built & Hlookup & _ & _ & _ & Hsecond).
  vm_compute in Hlookup. injection Hlookup as <- <-.
  exact (proj2 (Hsecond fail_full eq_refl) eq_refl eq_refl).
Defined.

(** A pending status is neither a success nor a failure. *)
Lemma unexpected_status_is_an_error_witness :
  let r := task_verify_etherscan_attempt_verification (env usual)
             foo_address 0 foo_extended tt "50"
             {| world := [pending]; heap := [minimal_input] |} in
  EvGetVerificationStatus "guid" (Ok pending) ∈ trace_of r
  ∧ outcome_of r =
      Threw (VerificationAPIUnexpectedMessageError "Pending in queue").
Proof.
  assert (EvGetVerificationStatus "guid" (Ok pending)
          ∈ trace_of
              (task_verify_etherscan_attempt_verification (env usual)
                 foo_address 0 foo_extended tt "50"
                 {| world := [pending]; heap := [minimal_input] |}))
    as Hin by find_in_trace.
  split; [exact Hin|].
  exact (proj1 (unexpected_status_is_an_error (env usual)
                  foo_address 0 foo_extended tt "50"
                  {| world := [pending]; heap := [minimal_input] |}
                  "guid" pending Hin eq_refl eq_refl)).
Defined.

(** No configured version matches and the bytecode is not OVM bytecode. *)
Lemma no_matching_version_is_an_error_witness :
  let r := task_verify_etherscan (env no_version) named_args (initial []) in
  EvGetMatchingVersions (deployed no_version) ["0.8.2"; "0.8.19"] (Ok [])
    ∈ trace_of r
  ∧ outcome_of r =
      Threw (CompilerVersionsMismatchError
               ["0.8.2"; "0.8.19"] "0.8.1" "sepolia").
Proof.
  assert (EvGetMatchingVersions (deployed no_version) ["0.8.2"; "0.8.19"]
            (Ok [])
          ∈ trace_of
              (task_verify_etherscan (env no_version) named_args (initial [])))
    as Hin by find_in_trace.
  split; [exact Hin|].
  exact (proj1 (proj1 (proj2
           (no_matching_version_is_an_error (env no_version) named_args
              (initial []) (deployed no_version) ["0.8.2"; "0.8.19"] Hin))
           eq_refl)).
Defined.

(** The artifact was built with a version that is not a matching one. *)
Lemma build_info_version_is_checked_witness :
  let r := task_verify_etherscan_get_contract_information (env other_version)
             (Some "contracts/Foo.sol:Foo") (deployed other_version)
             ["0.8.1"] [] (initial []) in
  outcome_of r =
    Threw (BuildInfoCompilerVersionMismatchError
             "contracts/Foo.sol:Foo" "0.8.1" false "0.8.2" "sepolia").
Proof.
  assert (EvGetBuildInfo "contracts/Foo.sol:Foo"
            (Ok (Some {| solcVersion := "0.8.2"; buildInfo_rest := tt |}))
          ∈ trace_of
              (task_verify_etherscan_get_contract_information
                 (env other_version) (Some "contracts/Foo.sol:Foo")
                 (deployed other_version) ["0.8.1"] [] (initial [])))
    as Hin by find_in_trace.
  refine (proj1 (proj1
            (build_info_version_is_checked (env other_version)
               "contracts/Foo.sol:Foo" (deployed other_version) ["0.8.1"] []
               (initial []) {| solcVersion := "0.8.2"; buildInfo_rest := tt |}
               Hin) _ eq_refl)).
  simpl. not_listed.
Defined.

(** The artifact of the named contract does not match. *)
Lemma named_mode_mismatch_fails_witness :
  let r := task_verify_etherscan_get_contract_information (env other_bytecode)
             (Some "contracts/Foo.sol:Foo") (deployed other_bytecode)
             ["0.8.2"] [] (initial []) in
  outcome_of r =
    Threw (DeployedBytecodeMismatchError "sepolia" "contracts/Foo.sol:Foo").
Proof.
  refine (proj1
            (named_mode_mismatch_fails (env other_bytecode)
               "contracts/Foo.sol:Foo" (deployed other_bytecode) ["0.8.2"] []
               (initial []) {| solcVersion := "0.8.2"; buildInfo_rest := tt |}
               _)).
  find_in_trace.
Defined.

(** Etherscan fails twice and Sourcify throws: both failures are reported. *)
Lemma failures_are_collected_and_reported_together_witness :
  let r := task_verify (env sourcify_down) named_args
             (initial [fail_minimal; fail_full]) in
  started (trace_of r) = ["verify:etherscan"; "verify:sourcify"]
  ∧ outcome_of r = Exited 1.
Proof.
  destruct (failures_are_collected_and_reported_together
              (env sourcify_down) named_args
              (initial [fail_minimal; fail_full]) eq_refl)
    as (subtasks & Hsubtasks & Hstarted & _ & _ & Hfailed);
    [discriminate | discriminate |].
  injection Hsubtasks as <-.
  split; [exact Hstarted|].
  apply Hfailed. vm_compute. discriminate.
Defined.

(** A request that submits the minimal input, then the full input. *)
Lemma submissions_carry_the_resolved_libraries_witness :
  let r := task_verify_etherscan (env usual) named_args
             (initial [fail_minimal; pass]) in
  ∃ found table built,
    library_lookups (trace_of r) = [(found, Ok table)]
    ∧ built_inputs (trace_of r) = [Ok built]
    ∧ let minimal := assign_libraries built (libraries table) in
      let full := assign_libraries (compilerInput found) (libraries table) in
      (submissions (trace_of r) = [JSON_stringify (env usual) minimal]
       ∨ submissions (trace_of r) =
           [JSON_stringify (env usual) minimal;
            JSON_stringify (env usual) full])
      ∧ settings_libraries (settings minimal) = Some (libraries table)
      ∧ settings_libraries (settings full) = Some (libraries table).
Proof.
  apply (submissions_carry_the_resolved_libraries (env usual) named_args
           (initial [fail_minimal; pass])).
  vm_compute. discriminate.
Defined.

(** Two resolved files carry the requested source name. *)
Lemma minimal_input_needs_exactly_one_file_witness :
  task_verify_etherscan_get_minimal_input (env duplicated_file)
    "contracts/Foo.sol" (initial [])
  = (Threw UnexpectedNumberOfFilesError, initial [],
     [EvGetDependencyGraph ["contracts/Foo.sol"]
        (Ok {| getResolvedFiles :=
                 [{| file_sourceName := "contracts/Foo.sol";
                     file_content := tt |};
                  {| file_sourceName := "contracts/Foo.sol";
                     file_content := tt |}];
               graph_edges := tt |})]).
Proof.
  refine (proj1
            (minimal_input_needs_exactly_one_file (env duplicated_file)
               "contracts/Foo.sol" (initial []) _ [] eq_refl) _).
  discriminate.
Defined.

(** The contract is already verified. *)
Lemma already_verified_returns_at_once_witness :
  let r := task_verify_etherscan (env already_verified) named_args
             (initial []) in
  EvIsVerified foo_address (Ok true) ∈ trace_of r
  ∧ outcome_of r = Returned tt.
Proof.
  assert (EvIsVerified foo_address (Ok true)
          ∈ trace_of
              (task_verify_etherscan (env already_verified) named_args
                 (initial [])))
    as Hin by find_in_trace.
  split; [exact Hin|].
  exact (proj1 (already_verified_returns_at_once (env already_verified)
                  named_args (initial []) foo_address Hin)).
Defined.

(** The artifact-existence check throws. *)
Lemma artifact_check_failure_is_contract_not_found_witness :
  task_verify_etherscan_get_contract_information (env unreadable_artifacts)
    (Some "contracts/Foo.sol:Foo") (deployed unreadable_artifacts)
    ["0.8.2"] [] (initial [])
  = (Threw (ContractNotFoundError "contracts/Foo.sol:Foo"), initial [],
     [EvArtifactExists "contracts/Foo.sol:Foo"
        (Err (OtherError "EACCES: permission denied"))]).
Proof.
  apply (artifact_check_failure_is_contract_not_found
           (env unreadable_artifacts) "contracts/Foo.sol:Foo"
           (deployed unreadable_artifacts) ["0.8.2"] [] (initial [])
           (Err (OtherError "EACCES: permission denied")) []).
  - reflexivity.
  - right. by eexists.
Defined.

(** Valid arguments, resolved. *)
Lemma resolved_arguments_are_valid_witness :
  let r := task_verify_resolve_arguments (env usual) named_args (initial []) in
  address named_args = Some foo_address
  ∧ isAddress (env usual) foo_address = true
  ∧ args_contractFQN named_resolved = contract named_args
  ∧ (∀ name, contract named_args = Some name →
             isFullyQualifiedName (env usual) name = true)
  ∧ EvResolveConstructorArguments ["50"] None (Ok ["50"]) ∈ trace_of r.
Proof.
  exact (resolved_arguments_are_valid (env usual) named_args (initial [])
           named_resolved eq_refl).
Defined.

(** The libraries are given as a dictionary. *)
Lemma dictionary_libraries_are_used_as_given_witness :
  let r := task_verify_resolve_arguments (env usual) dictionary_args
             (initial []) in
  (∀ path answer, EvResolveLibraries path answer ∉ trace_of r)
  ∧ (∀ args, outcome_of r = Returned args →
             args_libraries args = [("Lib", foo_address)]).
Proof.
  exact (dictionary_libraries_are_used_as_given (env usual) dictionary_args
           (initial []) [("Lib", foo_address)] eq_refl).
Defined.

(** The artifact exists and has no build info. *)
Lemma missing_build_info_is_an_error_witness :
  let r := task_verify_etherscan_get_contract_information
             (without_build_info (env usual)) (Some "contracts/Foo.sol:Foo")
             (deployed usual) ["0.8.2"] [] (initial []) in
  outcome_of r = Threw (BuildInfoNotFoundError "contracts/Foo.sol:Foo")
  ∧ last (trace_of r) =
      Some (EvGetBuildInfo "contracts/Foo.sol:Foo" (Ok None)).
Proof.
  apply (missing_build_info_is_an_error (without_build_info (env usual))
           "contracts/Foo.sol:Foo" (deployed usual) ["0.8.2"] [] (initial [])).
  find_in_trace.
Defined.


(** The minimal input of [contracts/Foo.sol], built in an empty store. *)
Lemma minimal_input_is_a_fresh_copy_witness :
  let r := task_verify_etherscan_get_minimal_input (env usual)
             "contracts/Foo.sol" (initial []) in
  outcome_of r = Returned 0%nat
  ∧ ∃ graph file job built,
      files_named "contracts/Foo.sol" graph = [file]
      ∧ trace_of r =
          [EvGetDependencyGraph ["contracts/Foo.sol"] (Ok graph);
           EvGetCompilationJobForFile graph file (Ok job);
           EvGetCompilerInput job (Ok built)]
      ∧ heap (state_of r) !! 0%nat = Some built.
Proof.
  split; [reflexivity|].
  exact (proj2 (proj2
           (minimal_input_is_a_fresh_copy (env usual) "contracts/Foo.sol"
              (initial []) 0%nat eq_refl))).
Defined.

(** An attempt on the minimal input held at reference 0. *)
Lemma attempt_changes_only_the_libraries_witness :
  let r := task_verify_etherscan_attempt_verification (env usual)
             foo_address 0 foo_extended tt "50" (submitting [pass]) in
  ∃ sent,
    heap (state_of r) !! 0%nat = Some sent
    ∧ settings_libraries (settings sent) = Some foo_libraries
    ∧ language sent = "Solidity"
    ∧ sources sent = ["contracts/Foo.sol"; "contracts/Lib.sol"]
    ∧ settings_other (settings sent) = tt
    ∧ ∀ other, other ≠ 0%nat →
        heap (state_of r) !! other = [minimal_input] !! other.
Proof.
  exact (attempt_changes_only_the_libraries (env usual)
           foo_address 0 foo_extended tt "50" (submitting [pass])
           minimal_input eq_refl).
Defined.

(** An attempt answered by a success. *)
Lemma attempt_returns_the_polled_verdict_witness :
  let r := task_verify_etherscan_attempt_verification (env usual)
             foo_address 0 foo_extended tt "50" (submitting [pass]) in
  ∃ guid status,
    polls (trace_of r) = [Ok status]
    ∧ polled (trace_of r) = [guid]
    ∧ true = isSuccess status
    ∧ "Pass - Verified" = message status
    ∧ (isSuccess status = true ∨ isFailure status = true)
    ∧ (isSuccess status = false →
       last (trace_of r) = Some (EvGetVerificationStatus guid (Ok status))).
Proof.
  exact (attempt_returns_the_polled_verdict (env usual)
           foo_address 0 foo_extended tt "50" (submitting [pass])
           {| success := true; response_message := "Pass - Verified" |}
           eq_refl).
Defined.

(** The submission of an attempt is answered by the token [guid]. *)
Lemma attempt_polls_the_token_of_its_submission_witness :
  let r := task_verify_etherscan_attempt_verification (env usual)
             foo_address 0 foo_extended tt "50" (submitting [pass]) in
  polled (trace_of r) = ["guid"] ∧ EvSleep 700 ∈ trace_of r.
Proof.
  refine (proj2 (proj2 (proj2 (proj2
            (attempt_polls_the_token_of_its_submission (env usual)
               foo_address 0 foo_extended tt "50" (submitting [pass])
               foo_address
               (JSON_stringify (env usual)
                  (assign_libraries minimal_input foo_libraries))
               "contracts/Foo.sol:Foo" "v0.8.2+commit.661d1103" "50"
               (Ok receipt) _))))).
  find_in_trace.
Defined.

(** The minimal attempt is answered by a failure, the full one by a
    success. *)
Lemma only_a_reported_failure_is_retried_witness :
  let r := task_verify_etherscan (env usual) named_args
             (initial [fail_minimal; pass]) in
  ∃ status answers,
    polls (trace_of r) = Ok status :: answers
    ∧ isSuccess status = false
    ∧ isFailure status = true.
Proof.
  apply (only_a_reported_failure_is_retried (env usual) named_args
           (initial [fail_minimal; pass])).
  vm_compute. constructor.
Defined.

(** The minimal attempt is answered by a pending status. *)
Lemma unexpected_status_ends_the_request_witness :
  let r := task_verify_etherscan (env usual) named_args (initial [pending]) in
  outcome_of r =
    Threw (VerificationAPIUnexpectedMessageError "Pending in queue")
  ∧ last (polls (trace_of r)) = Some (Ok pending)
  ∧ length (submissions (trace_of r)) = length (polls (trace_of r)).
Proof.
  apply (unexpected_status_ends_the_request (env usual) named_args
           (initial [pending]) pending); [|reflexivity..].
  vm_compute. apply list_elem_of_here.
Defined.

(** The address of [Foo] is the one asked about. *)
Lemma only_the_given_address_is_used_witness :
  foo_address
    ∈ addresses (trace_of (task_verify_etherscan (env already_verified)
                             named_args (initial [])))
  ∧ address named_args = Some foo_address.
Proof.
  assert (foo_address
          ∈ addresses (trace_of (task_verify_etherscan (env already_verified)
                                   named_args (initial []))))
    as Hin by (vm_compute; apply list_elem_of_here).
  split; [exact Hin|].
  exact (only_the_given_address_is_used (env already_verified) named_args
           (initial []) foo_address Hin).
Defined.

(** The submission of [Foo], verified at the first attempt. *)
Lemma submissions_describe_the_resolved_contract_witness :
  let r := task_verify_etherscan (env usual) named_args (initial [pass]) in
  ∃ found table,
    library_lookups (trace_of r) = [(found, Ok table)]
    ∧ "contracts/Foo.sol:Foo" = sourceName found +:+ ":" +:+ contractName found
    ∧ "v0.8.2+commit.661d1103" = "v" +:+ solcLongVersion found
    ∧ ∃ values,
        EvEncodeArguments (sourceName found) (contractName found) values
          (Ok "50") ∈ trace_of r.
Proof.
  apply (submissions_describe_the_resolved_contract (env usual) named_args
           (initial [pass]) foo_address
           (JSON_stringify (env usual)
              (assign_libraries minimal_input foo_libraries))
           "contracts/Foo.sol:Foo" "v0.8.2+commit.661d1103" "50" (Ok receipt)).
  find_in_trace.
Defined.

(** The networks are listed. *)
Lemma listing_networks_verifies_nothing_witness :
  let r := task_verify (env usual) list_args (initial [pass]) in
  ∃ answer,
    printSupportedNetworks (env usual)
      (customChains (etherscan (config (env usual)))) [pass]
      = (answer, world (state_of r))
    ∧ trace_of r = [EvPrintSupportedNetworks answer]
    ∧ outcome_of r = match answer with
                     | Ok _ => Returned tt
                     | Err e => Threw e
                     end
    ∧ heap (state_of r) = [].
Proof.
  exact (listing_networks_verifies_nothing (env usual) list_args
           (initial [pass]) eq_refl).
Defined.

(** Etherscan verifies and Sourcify throws. *)
Lemma batch_returns_or_exits_witness :
  let r := task_verify (env sourcify_down) named_args (initial [pass]) in
  outcome_of r = Exited 1
  ∧ failures (trace_of r) =
      [("verify:sourcify", OtherError "Sourcify is unreachable")].
Proof.
  split; [reflexivity|].
  destruct (batch_returns_or_exits (env sourcify_down) named_args
              (initial [pass]) eq_refl) as [(_ & Hnone & _) | _];
    [|reflexivity].
  vm_compute in Hnone. discriminate Hnone.
Defined.

(** Neither service is enabled. *)
Lemma nothing_enabled_only_warns_witness :
  ∃ nothing skipped,
    task_verify (env nothing_enabled) named_args (initial []) =
      (Returned tt, initial [],
       [EvConsoleWarn nothing;
        EvTaskStart "verify:sourcify-disabled-warning";
        EvConsoleWarn skipped;
        EvTaskEnd "verify:sourcify-disabled-warning" (Returned tt)]).
Proof.
  apply (nothing_enabled_only_warns (env nothing_enabled) named_args
           (initial [])); [reflexivity..|].
  simpl. discriminate.
Defined.


End Witnesses.
